(** * pyEIA: the request base and the series query

    A shallow embedding of [eia/api/base.py] and [eia/api/series.py].

    Python values that the two modules handle are embedded as follows:
    - [str] as [string], [list] as [list], [None]-or-[str] as [option string];
    - the keyword dictionaries [_params] and [data] as [gmap string string];
    - decoded response bodies ([response.json()]) as the inductive [json],
      whose objects keep their keys in insertion order, as Python dicts do;
    - an exception as the [Raise] outcome of a [result];
    - the remote service as a tape of scripted responses together with the
      log of the requests that were issued;
    - a pandas [DataFrame] as a record of column labels, row labels and rows;
      a cell records the value its entry is made from, not the machine form
      that the dtype of its column gives the entry. *)

From Stdlib Require Import ZArith Lia String Ascii List.
From stdpp Require Import gmap strings list fin_maps.

Local Open Scope string_scope.
Local Open Scope list_scope.
Set Warnings "-register-all".

(** ** Outcomes of a Python computation *)

Inductive exn : Type :=
  | TypeError
  | ValueError
  | KeyError
  | AttributeError
  | AssertionError
  | TransportError.

(** [Unmodelled] marks a run that leaves the fragment of Python and pandas
    described here (or that exhausts the step budget of a loop). *)
Inductive result (A : Type) : Type :=
  | Ok (a : A)
  | Raise (e : exn)
  | Unmodelled.

Arguments Ok {A} a.
Arguments Raise {A} e.
Arguments Unmodelled {A}.

#[global] Instance result_ret : MRet result := fun _ a => Ok a.

#[global] Instance result_bind : MBind result := fun _ _ k r =>
  match r with
  | Ok a => k a
  | Raise e => Raise e
  | Unmodelled => Unmodelled
  end.

(** ** [base.py]: [yield_chunks] *)

Module Itertools.

(** [sys.maxsize] of a 64-bit build. *)
Definition maxsize : Z := 2 ^ 63 - 1.

(** [itertools.islice(iterator, start, stop)], drained, on an iterator whose
    pending items are [iterator]: the items it yields and the items it
    leaves. Both bounds must lie between 0 and [sys.maxsize]. *)
Definition islice {A} (iterator : list A) (start stop : Z)
  : result (list A * list A) :=
  if ((start <? 0) || (stop <? 0) || (maxsize <? start) || (maxsize <? stop))%Z
  then Raise ValueError
  else
    let pending := drop (Z.to_nat start) iterator in
    let width := Z.to_nat (stop - start) in
    Ok (take width pending, drop width pending).

End Itertools.

(** One resumption of the generator [yield_chunks(iterator, n)]: [None] is
    [StopIteration], [Some (chunk, iterator')] is the list it yields and the
    items still pending in the shared iterator. *)
Definition yield_chunks_next {A} (iterator : list A) (n : Z)
  : result (option (list A * list A)) :=
  match iterator with
  | [] => Ok None
  | edge :: iterator =>
      '(boundary, iterator) ← Itertools.islice iterator 0 (n - 1)%Z;
      Ok (Some (edge :: boundary, iterator))
  end.

(** Draining the generator, at most [fuel] resumptions. *)
Fixpoint yield_chunks_fuel {A} (fuel : nat) (iterator : list A) (n : Z)
  : result (list (list A)) :=
  step ← yield_chunks_next iterator n;
  match step with
  | None => Ok []
  | Some (chunk, iterator) =>
      match fuel with
      | O => Unmodelled
      | S fuel =>
          chunks ← yield_chunks_fuel fuel iterator n;
          Ok (chunk :: chunks)
      end
  end.

(** Every resumption that yields takes at least [edge] off the iterator, so
    as many resumptions as there are items always suffice. *)
Definition yield_chunks {A} (iterator : list A) (n : Z)
  : result (list (list A)) :=
  yield_chunks_fuel (length iterator) iterator n.

(** ** [series.py]: the batching expression of [Series.__post_init__]

    [[";".join(chunk) for chunk in yield_chunks(series_ids, 100)]] *)

Definition join (sep : string) (items : list string) : string :=
  String.concat sep items.

Definition batch_ids (series_ids : list string) : result (list string) :=
  chunks ← yield_chunks series_ids 100;
  Ok (map (join ";") chunks).

(** [s.split(sep)] for a one-character separator; used only to state what
    joining loses or keeps. *)
Fixpoint split (sep : ascii) (s : string) : list string :=
  match s with
  | EmptyString => [""]
  | String c rest =>
      if Ascii.eqb c sep then "" :: split sep rest
      else match split sep rest with
           | [] => [String c ""]
           | head :: tail => String c head :: tail
           end
  end.

Fixpoint mentions (sep : ascii) (s : string) : bool :=
  match s with
  | EmptyString => false
  | String c rest => Ascii.eqb c sep || mentions sep rest
  end.

Definition semicolon : ascii := ";"%char.

(** Identifiers used in examples: [ident k] is the letter x repeated [k+1]
    times, so distinct indices give distinct identifiers. *)
Fixpoint ident (k : nat) : string :=
  match k with
  | O => "x"
  | S k => String "x"%char (ident k)
  end.

Definition idents (count : nat) : list string := map ident (seq 0 count).

(** ** Decoded response bodies *)

Inductive json : Type :=
  | JNull
  | JBool (b : bool)
  | JInt (z : Z)
  | JFloat (literal : string)
  | JStr (s : string)
  | JList (items : list json)
  | JObj (fields : list (string * json)).

(** The operations on Python values that the two modules use. A [dict] is
    [JObj], its keys in insertion order and pairwise distinct. *)
Module Py.

Fixpoint lookup (key : string) (fields : list (string * json)) : option json :=
  match fields with
  | [] => None
  | (k, v) :: fields => if String.eqb k key then Some v else lookup key fields
  end.

Fixpoint remove (key : string) (fields : list (string * json))
  : list (string * json) :=
  match fields with
  | [] => []
  | (k, v) :: fields =>
      if String.eqb k key then fields else (k, v) :: remove key fields
  end.

(** [obj.get(key, default)] *)
Definition get (obj : json) (key : string) (default : json) : result json :=
  match obj with
  | JObj fields =>
      match lookup key fields with
      | Some v => Ok v
      | None => Ok default
      end
  | _ => Raise AttributeError
  end.

(** [obj.pop(key)] for a string key: the value and the object afterwards. *)
Definition pop (obj : json) (key : string) : result (json * json) :=
  match obj with
  | JObj fields =>
      match lookup key fields with
      | Some v => Ok (v, JObj (remove key fields))
      | None => Raise KeyError
      end
  | JList _ => Raise TypeError
  | _ => Raise AttributeError
  end.

Fixpoint chars (s : string) : list json :=
  match s with
  | EmptyString => []
  | String c rest => JStr (String c EmptyString) :: chars rest
  end.

(** The items that [for x in v] visits. *)
Definition iterate (v : json) : result (list json) :=
  match v with
  | JList items => Ok items
  | JStr s => Ok (chars s)
  | JObj fields => Ok (map (fun kv => JStr (fst kv)) fields)
  | _ => Raise TypeError
  end.

(** [a or b] on values that are [None] or a [str]. *)
Definition truthy (v : option string) : bool :=
  match v with
  | None => false
  | Some s => negb (String.eqb s "")
  end.

Definition or (a b : option string) : option string :=
  if truthy a then a else b.

Fixpoint endswith (s : string) (c : ascii) : bool :=
  match s with
  | EmptyString => false
  | String x EmptyString => Ascii.eqb x c
  | String _ rest => endswith rest c
  end.

(** Letters, digits, the hyphen and the underscore. *)
Definition segment_char (c : ascii) : bool :=
  let n := nat_of_ascii c in
  (Nat.leb 48 n && Nat.leb n 57) || (Nat.leb 65 n && Nat.leb n 90)
  || (Nat.leb 97 n && Nat.leb n 122) || Nat.eqb n 45 || Nat.eqb n 95.

(** Segments of such characters, one slash between two of them and possibly
    one at the end. *)
Fixpoint plain_segments (after_slash : bool) (path : string) : bool :=
  match path with
  | EmptyString => true
  | String c rest =>
      if Ascii.eqb c "/"%char then negb after_slash && plain_segments true rest
      else segment_char c && plain_segments false rest
  end.

Definition plain_path (path : string) : bool :=
  negb (String.eqb path "") && plain_segments true path.

(** [urllib.parse.urljoin(base, path)] where [base] has a scheme and a host
    but no path, as [ROOT] has: a plain relative path is placed under the
    root of the host. How other references are resolved (an empty one, one
    that starts with a slash, dot segments, a scheme, a query) is not
    modelled. *)
Definition urljoin (base path : string) : result string :=
  if plain_path path then Ok (base +:+ "/" +:+ path) else Unmodelled.

End Py.

(** ** The remote service *)

Inductive verb : Type := GET | POST.

Record request : Type := {
  req_verb : verb;
  req_url : string;
  req_params : gmap string string;
  req_data : option (gmap string string)
}.

(** [tape] holds what the coming calls will produce, in order: a decoded body,
    or the exception that [httpx] or [response.json()] raises. A call on an
    empty tape fails in the transport. [sent] logs the requests issued. *)
Record world : Type := {
  sent : list request;
  tape : list (result json)
}.

Definition exchange (r : request) (w : world) : result json * world :=
  match tape w with
  | [] => (Raise TransportError, {| sent := sent w ++ [r]; tape := [] |})
  | answer :: rest => (answer, {| sent := sent w ++ [r]; tape := rest |})
  end.

(** ** The instance and its methods *)

(** [eia.settings] is configuration outside the two modules; its [APIKEY] is
    [None] or a string. *)
Record settings : Type := { APIKEY : option string }.

(** The attributes of an instance. [_configure] assigns [apikey], [_params]
    and [url] or raises; [series_ids] is assigned by [__post_init__] only, so
    it may be missing. *)
Record instance : Type := {
  apikey : string;
  _params : gmap string string;
  url : string;
  series_ids : option (list string)
}.

Record state : Type := { self : instance; net : world }.

Definition M (A : Type) : Type := state -> result A * state.

#[global] Instance M_ret : MRet M := fun _ a st => (Ok a, st).

#[global] Instance M_bind : MBind M := fun _ _ k m st =>
  match m st with
  | (Ok a, st) => k a st
  | (Raise e, st) => (Raise e, st)
  | (Unmodelled, st) => (Unmodelled, st)
  end.

Definition lift {A} (r : result A) : M A := fun st => (r, st).

Definition request_ (r : request) : M json := fun st =>
  let '(answer, w) := exchange r (net st) in
  (answer, {| self := self st; net := w |}).

Module BaseQuery.

Definition ROOT : string := "https://api.eia.gov".

(** [_configure(self, apikey)]: the three attributes it assigns. *)
Definition _configure (cfg : settings) (endpoint : string)
    (apikey : option string) : result (string * gmap string string * string) :=
  let chosen := Py.or apikey (APIKEY cfg) in
  match chosen with
  | Some key =>
      if Py.truthy chosen then
        let params : gmap string string :=
          <["out" := "json"]> (<["api_key" := key]> ∅) in
        let endpoint :=
          if Py.endswith endpoint "/"%char then endpoint
          else endpoint +:+ "/" in
        address ← Py.urljoin ROOT endpoint;
        Ok (key, params, address)
      else Raise AssertionError
  | None => Raise AssertionError
  end.

(** Binding the arguments of a call [cls(args..., apikey=keyword)] to the
    signature [__init__(self, apikey=None)]. *)
Definition bind_arguments (args : list string) (keyword : option string)
  : result (option string) :=
  match args, keyword with
  | [], _ => Ok keyword
  | [positional], None => Ok (Some positional)
  | [_], Some _ => Raise TypeError
  | _ :: _ :: _, _ => Raise TypeError
  end.

(** [_get(self, data)] *)
Definition _get (data : gmap string string) : M json := fun st =>
  let params := data ∪ _params (self st) in
  request_ {| req_verb := GET; req_url := url (self st);
              req_params := params; req_data := None |} st.

(** [_post(self, data)] *)
Definition _post (data : gmap string string) : M json := fun st =>
  request_ {| req_verb := POST; req_url := url (self st);
              req_params := _params (self st); req_data := Some data |} st.

End BaseQuery.

(** ** A model of the pandas operations that [to_dataframe] calls *)

(** A cell records where its entry comes from. [Stored v] is the entry that
    pandas makes of the Python value [v] in the dtype it infers for the
    column: [v] itself in an object column, its float in a float column (3
    as 3.0, [None] as NaN). Which dtype a column gets, and so the machine
    form of a stored value, is not modelled. [NaN] is the entry filled in
    where a frame has no such column. *)
Inductive cell : Type :=
  | Stored (v : json)
  | NaN.

Record DataFrame : Type := {
  columns : list string;
  index : list Z;
  rows : list (list cell)
}.

Module Pandas.

Definition scalar (v : json) : bool :=
  match v with
  | JList _ | JObj _ => false
  | _ => true
  end.

Definition row_of (width : nat) (item : json) : result (list cell) :=
  match item with
  | JList cells =>
      if Nat.eqb (length cells) width then Ok (map Stored cells) else Unmodelled
  | _ => Unmodelled
  end.

Fixpoint rows_of (width : nat) (items : list json) : result (list (list cell)) :=
  match items with
  | [] => Ok []
  | item :: items =>
      row ← row_of width item;
      rest ← rows_of width items;
      Ok (row :: rest)
  end.

(** [pd.DataFrame(data, columns=labels)] for [data] a list of rows, each a
    list with one entry per label; the row labels are [0 .. len-1]. Each
    cell is the stored form of the entry at its place: pandas picks one
    dtype per column and converts the entries to it. Data of another shape
    is not modelled. *)
Definition DataFrame_ (data : json) (labels : list string) : result DataFrame :=
  match data with
  | JList items =>
      body ← rows_of (length labels) items;
      Ok {| columns := labels;
            index := seqZ 0 (Z.of_nat (length body));
            rows := body |}
  | _ => Unmodelled
  end.

(** The entry of [row] under the column labelled [label]. *)
Fixpoint cell_at (labels : list string) (row : list cell) (label : string) : cell :=
  match labels, row with
  | l :: labels, c :: row =>
      if String.eqb l label then c else cell_at labels row label
  | _, _ => NaN
  end.

Fixpoint set_cell (labels : list string) (row : list cell) (label : string)
    (c : cell) : list cell :=
  match labels, row with
  | l :: labels, x :: row =>
      if String.eqb l label then c :: row
      else x :: set_cell labels row label c
  | _, _ => row
  end.

Definition has_label (labels : list string) (label : string) : bool :=
  existsb (String.eqb label) labels.

(** [df[label] = v] for a scalar [v]: an existing column is overwritten in
    place, a new one is appended on the right. *)
Definition set_column (df : DataFrame) (label : string) (v : json) : DataFrame :=
  if has_label (columns df) label then
    {| columns := columns df;
       index := index df;
       rows := map (fun row => set_cell (columns df) row label (Stored v)) (rows df) |}
  else
    {| columns := columns df ++ [label];
       index := index df;
       rows := map (fun row => row ++ [Stored v]) (rows df) |}.

(** [df[label] = v] for a value that is no scalar. A list must have one item
    per row label: on a frame that has rows, a list of another length raises
    [ValueError]. What pandas makes of the other values is not modelled. *)
Definition set_sequence (df : DataFrame) (v : json) : result DataFrame :=
  match v with
  | JList items =>
      if negb (Nat.eqb (length (index df)) 0)
         && negb (Nat.eqb (length items) (length (index df)))
      then Raise ValueError
      else Unmodelled
  | _ => Unmodelled
  end.

(** The loop of [assign] over its keyword arguments, in their order. *)
Fixpoint assign_fields (df : DataFrame) (fields : list (string * json))
  : result DataFrame :=
  match fields with
  | [] => Ok df
  | (label, v) :: fields =>
      if scalar v then assign_fields (set_column df label v) fields
      else set_sequence df v
  end.

(** [df.assign] called with the entries of [kwargs] as keyword arguments.
    The method is [assign(self, ...)] with the frame bound to [self], so a
    keyword named self is a second value for that parameter: the call raises
    [TypeError] before any column is set. *)
Definition assign (df : DataFrame) (kwargs : json) : result DataFrame :=
  match kwargs with
  | JObj fields =>
      if has_label (map fst fields) "self" then Raise TypeError
      else assign_fields df fields
  | _ => Raise TypeError
  end.

(** Labels of all frames, each once, in order of first appearance (the
    order without sorting, the default since pandas 1.0). *)
Fixpoint merge_labels (seen : list string) (frames : list DataFrame) : list string :=
  match frames with
  | [] => seen
  | df :: frames =>
      merge_labels
        (seen ++ List.filter (fun l => negb (has_label seen l)) (columns df))
        frames
  end.

Definition reindex (labels : list string) (df : DataFrame) : list (list cell) :=
  map (fun row => map (cell_at (columns df) row) labels) (rows df).

(** [pd.concat(objs, ignore_index=...)] along the rows, outer join on the
    columns: a row keeps, under each label of its frame, the cell it had (in
    the stored form of the dtype that the joined column gets) and has [NaN]
    under the labels that its frame lacks. No frame at all raises
    [ValueError]. *)
Definition concat (objs : list DataFrame) (ignore_index : bool) : result DataFrame :=
  match objs with
  | [] => Raise ValueError
  | _ =>
      let labels := merge_labels [] objs in
      let body := List.concat (map (reindex labels) objs) in
      Ok {| columns := labels;
            index := if ignore_index then seqZ 0 (Z.of_nat (length body))
                     else List.concat (map index objs);
            rows := body |}
  end.

End Pandas.

Module Series.

Definition endpoint : string := "series".

(** The call [Series(args..., apikey=keyword)]. The class defines no
    [__init__], so the call runs [BaseQuery.__init__(self, apikey)], which
    is [self._configure(apikey)]. *)
Definition new (cfg : settings) (args : list string) (keyword : option string)
    (w : world) : result instance * world :=
  (bound ← BaseQuery.bind_arguments args keyword;
   '(key, params, address) ← BaseQuery._configure cfg endpoint bound;
   Ok {| apikey := key; _params := params; url := address;
         series_ids := None |},
   w).

(** [__post_init__(self, *series_ids)] *)
Definition __post_init__ (ids : list string) : M unit := fun st =>
  match batch_ids ids with
  | Ok batches =>
      (Ok tt,
       {| self := {| apikey := apikey (self st);
                     _params := _params (self st);
                     url := url (self st);
                     series_ids := Some batches |};
          net := net st |})
  | Raise e => (Raise e, st)
  | Unmodelled => (Unmodelled, st)
  end.

(** The body of the two nested loops of [parse] for one [group]. *)
Definition collect (group : json) (output : list json) : result (list json) :=
  found ← Py.get group "series" (JList []);
  entries ← Py.iterate found;
  Ok (output ++ entries).

(** [_get_data] is consumed by the [async for] of [parse] alone, one
    response at a time: the batch [k+1] is posted after the group of batch
    [k] was collected. [pending] are the batches not yet posted. *)
Fixpoint parse_loop (pending : list string) (output : list json) : M (list json) :=
  match pending with
  | [] => mret output
  | batch :: pending =>
      group ← BaseQuery._post {[ "series_id" := batch ]};
      output ← lift (collect group output);
      parse_loop pending output
  end.

(** [parse(self)] *)
Definition parse : M (list json) := fun st =>
  match series_ids (self st) with
  | None => (Raise AttributeError, st)
  | Some batches => parse_loop batches [] st
  end.

(** [to_dict(self)] *)
Definition to_dict : M (list json) := parse.

(** The body of the [for series in records] loop of [to_dataframe], up to
    the frame that it appends to [data]. *)
Definition frame (include_metadata : bool) (series : json) : result DataFrame :=
  '(points, series) ← Py.pop series "data";
  df ← Pandas.DataFrame_ points ["period"; "value"];
  if include_metadata then Pandas.assign df series else Ok df.

Fixpoint frames (include_metadata : bool) (records : list json)
    (data : list DataFrame) : result (list DataFrame) :=
  match records with
  | [] => Ok data
  | series :: records =>
      df ← frame include_metadata series;
      frames include_metadata records (data ++ [df])
  end.

(** [to_dataframe(self, include_metadata)] *)
Definition to_dataframe (include_metadata : bool) : M DataFrame :=
  records ← parse;
  data ← lift (frames include_metadata records []);
  lift (Pandas.concat data true).

End Series.

(** ** Vocabulary of the statements *)

(** A hundred identifiers whose first one contains the separator. *)
Definition tainted_ids : list string := "a;b" :: idents 99.

(** The two identifiers of the example in the docstring of [Series]. *)
Definition docstring_ids : list string :=
  [ "AEO.2015.REF2015.CNSM_DEU_TOTD_NA_DEU_NA_ENC_QBTU.A";
    "AEO.2015.REF2015.CNSM_ENU_ALLS_NA_DFO_DELV_ENC_QBTU.A" ].

Definition keyed : settings := {| APIKEY := Some "k" |}.
Definition unkeyed : settings := {| APIKEY := None |}.

(** A service that has answered nothing yet and will answer with [answers]. *)
Definition service (answers : list (result json)) : world :=
  {| sent := []; tape := answers |}.

(** The request that [_post] issues for one batch. *)
Definition batch_request (q : instance) (batch : string) : request :=
  {| req_verb := POST; req_url := url q; req_params := _params q;
     req_data := Some {[ "series_id" := batch ]} |}.

(** The series list that a response mapping declares, if it declares one. *)
Definition series_list (group : json) : list json :=
  match group with
  | JObj fields =>
      match Py.lookup "series" fields with
      | Some (JList items) => items
      | _ => []
      end
  | _ => []
  end.

(** A response mapping: an object whose series field, when present, holds a
    list. *)
Definition response_mapping (group : json) : bool :=
  match group with
  | JObj fields =>
      match Py.lookup "series" fields with
      | Some (JList _) | None => true
      | Some _ => false
      end
  | _ => false
  end.

(** What a series record carries besides its observations, and its
    observations. *)
Definition metadata (record : json) : list (string * json) :=
  match record with
  | JObj fields => Py.remove "data" fields
  | _ => []
  end.

Definition observations (record : json) : list json :=
  match record with
  | JObj fields =>
      match Py.lookup "data" fields with
      | Some (JList items) => items
      | _ => []
      end
  | _ => []
  end.

Definition observation (item : json) : bool :=
  match item with
  | JList [_; _] => true
  | _ => false
  end.

Fixpoint distinct (keys : list string) : bool :=
  match keys with
  | [] => true
  | key :: keys => negb (Pandas.has_label keys key) && distinct keys
  end.

(** A record with observations: a dict whose data field is a list of period
    and value pairs. *)
Definition observed (record : json) : bool :=
  match record with
  | JObj fields =>
      match Py.lookup "data" fields with
      | Some (JList items) => forallb observation items
      | _ => false
      end
  | _ => false
  end.

(** A record with observations and plain metadata: its keys are distinct, as
    those of a dict are, its fields besides the data hold scalars, and none
    of them is named self. *)
Definition series_record (record : json) : bool :=
  match record with
  | JObj fields =>
      distinct (map fst fields)
      && observed record
      && forallb (fun field => Pandas.scalar (snd field)) (Py.remove "data" fields)
      && negb (Pandas.has_label (map fst fields) "self")
  | _ => false
  end.

(** Every row of the frame has one cell per column. *)
Definition rectangular (df : DataFrame) : Prop :=
  Forall (fun row => length row = length (columns df)) (rows df).

(** Every row of the frame holds [c] under [label]. *)
Definition constant_column (df : DataFrame) (label : string) (c : cell) : Prop :=
  Forall (fun row => Pandas.cell_at (columns df) row label = c) (rows df).

(** How the frame built for one record relates to the record. *)
Definition frame_of (include_metadata : bool) (record : json) (df : DataFrame) : Prop :=
  length (rows df) = length (observations record)
  /\ if include_metadata then
       (forall label,
          In label (columns df)
          <-> label = "period" \/ label = "value"
              \/ In label (map fst (metadata record)))
       /\ (forall label v, In (label, v) (metadata record) ->
             constant_column df label (Stored v))
     else columns df = ["period"; "value"].

(** An instance after [__post_init__] on three identifiers, and records as
    the service sends them. *)
Definition sample_query : instance :=
  {| apikey := "k";
     _params := <["out" := "json"]> (<["api_key" := "k"]> ∅);
     url := "https://api.eia.gov/series/";
     series_ids := Some ["A;B"; "C"] |}.

Definition record_a : json :=
  JObj [ ("series_id", JStr "A"); ("units", JStr "quads");
         ("data", JList [ JList [JStr "2015"; JInt 3];
                          JList [JStr "2014"; JInt 2] ]) ].

Definition record_b : json :=
  JObj [ ("series_id", JStr "B");
         ("data", JList [ JList [JStr "2015"; JFloat "1.5"] ]);
         ("source", JStr "AEO") ].

Definition answer_ab : json :=
  JObj [ ("request", JObj [("command", JStr "series")]);
         ("series", JList [record_a; record_b]) ].

Definition answer_bare : json :=
  JObj [ ("request", JObj [("command", JStr "series")]) ].

Definition answer_none : json := JObj [ ("series", JList []) ].






(** ** Vocabulary of the further statements *)

(** The row that [pd.DataFrame] makes of one observation. *)
Definition cells_of (item : json) : list cell :=
  match item with
  | JList cells => map Stored cells
  | _ => []
  end.

(** The exception that collecting a decoded body raises, if it raises one:
    a body that is no object has no [get]; a series field that holds [None],
    a boolean or a number cannot be iterated. *)
Definition malformed (group : json) : option exn :=
  match group with
  | JObj fields =>
      match Py.lookup "series" fields with
      | Some (JNull | JBool _ | JInt _ | JFloat _) => Some TypeError
      | _ => None
      end
  | _ => Some AttributeError
  end.

(** The parameters that [_configure] stores for the credential [key]. *)
Definition default_params (key : string) : gmap string string :=
  <["out" := "json"]> (<["api_key" := key]> ∅).

(** The frame of one record when metadata is left out. *)
Definition plain_frame (record : json) : DataFrame :=
  {| columns := ["period"; "value"];
     index := seqZ 0 (Z.of_nat (length (observations record)));
     rows := map cells_of (observations record) |}.

(** The instance that [Series(apikey="secret")] returns. *)
Definition secret_query : instance :=
  {| apikey := "secret";
     _params := default_params "secret";
     url := "https://api.eia.gov/series/";
     series_ids := None |}.

Definition record_bare : json := JObj [ ("series_id", JStr "C") ].

Definition answer_c : json := JObj [ ("series", JList [record_bare]) ].

Definition answer_null : json := JObj [ ("series", JNull) ].

(** * Properties *)

(** ** Chunking *)

Section Chunking.

Context {A : Type}.
Implicit Types (iterator chunk : list A) (n : Z).

Lemma islice_prefix iterator (stop : Z) :
  (0 <= stop <= Itertools.maxsize)%Z ->
  Itertools.islice iterator 0 stop
  = Ok (take (Z.to_nat stop) iterator, drop (Z.to_nat stop) iterator).
Proof.
  intros Hstop. unfold Itertools.islice.
  replace (stop <? 0)%Z with false by (symmetry; apply Z.ltb_ge; lia).
  replace (Itertools.maxsize <? stop)%Z with false
    by (symmetry; apply Z.ltb_ge; lia).
  cbn [Z.to_nat drop orb Z.ltb Z.compare Itertools.maxsize].
  change (Itertools.maxsize <? 0)%Z with false. cbn [orb].
  by rewrite Z.sub_0_r.
Qed.

Lemma islice_rejects iterator (stop : Z) :
  (stop < 0 \/ Itertools.maxsize < stop)%Z ->
  Itertools.islice iterator 0 stop = Raise ValueError.
Proof.
  intros Hstop. unfold Itertools.islice.
  destruct Hstop as [Hneg | Hbig].
  - apply Z.ltb_lt in Hneg. rewrite Hneg. by rewrite orb_true_r.
  - apply Z.ltb_lt in Hbig. rewrite Hbig. by rewrite orb_true_r.
Qed.

Lemma yield_chunks_fuel_nil fuel n : yield_chunks_fuel fuel (@nil A) n = Ok [].
Proof. by destruct fuel. Qed.

Lemma yield_chunks_fuel_cons fuel edge iterator n :
  (1 <= n <= Itertools.maxsize + 1)%Z ->
  yield_chunks_fuel (S fuel) (edge :: iterator) n
  = (chunks ← yield_chunks_fuel fuel (drop (Z.to_nat (n - 1)) iterator) n;
     Ok ((edge :: take (Z.to_nat (n - 1)) iterator) :: chunks)).
Proof.
  intros Hn. cbn [yield_chunks_fuel yield_chunks_next].
  by rewrite islice_prefix by lia.
Qed.

Lemma chunk_count_step (len width : nat) :
  1 <= width ->
  S ((len - (width - 1) + (width - 1)) / width) = (S len + (width - 1)) / width.
Proof.
  intros Hw.
  replace (S len + (width - 1)) with (len + 1 * width) by lia.
  rewrite Nat.div_add by lia.
  destruct (le_lt_dec (width - 1) len) as [Hle | Hlt].
  - replace (len - (width - 1) + (width - 1)) with len by lia. lia.
  - replace (len - (width - 1) + (width - 1)) with (width - 1) by lia.
    rewrite !Nat.div_small by lia. lia.
Qed.

(** With a width of at least one, as many resumptions as there are items
    drain the generator; the chunks are a partition of the input in order,
    none empty and none longer than the width. *)
Lemma yield_chunks_fuel_partition n :
  (1 <= n <= Itertools.maxsize + 1)%Z ->
  forall fuel iterator,
    length iterator <= fuel ->
    exists chunks,
      yield_chunks_fuel fuel iterator n = Ok chunks
      /\ List.concat chunks = iterator
      /\ Forall (fun chunk => 1 <= length chunk <= Z.to_nat n) chunks
      /\ length chunks
         = (length iterator + (Z.to_nat n - 1)) / Z.to_nat n.
Proof.
  intros Hn. induction fuel as [| fuel IH]; intros iterator Hlen.
  - destruct iterator; [| cbn in Hlen; lia].
    exists []. rewrite yield_chunks_fuel_nil. repeat split; [by constructor |].
    cbn [length]. rewrite Nat.div_small; lia.
  - destruct iterator as [| edge iterator].
    + exists []. rewrite yield_chunks_fuel_nil. repeat split; [by constructor |].
      cbn [length]. rewrite Nat.div_small; lia.
    + destruct (IH (drop (Z.to_nat (n - 1)) iterator)) as (chunks & Hrun & Hcat & Hall & Hcount).
      { rewrite length_drop. cbn in Hlen. lia. }
      exists ((edge :: take (Z.to_nat (n - 1)) iterator) :: chunks).
      rewrite yield_chunks_fuel_cons, Hrun by done.
      repeat split.
      * cbn [List.concat]. rewrite Hcat. cbn. by rewrite take_drop.
      * constructor; [| done]. cbn [length]. rewrite length_take. lia.
      * cbn [length]. rewrite Hcount, length_drop.
        replace (Z.to_nat (n - 1)) with (Z.to_nat n - 1) by lia.
        apply chunk_count_step. lia.
Qed.

Lemma yield_chunks_partition iterator n :
  (1 <= n <= Itertools.maxsize + 1)%Z ->
  exists chunks,
    yield_chunks iterator n = Ok chunks
    /\ List.concat chunks = iterator
    /\ Forall (fun chunk => 1 <= length chunk <= Z.to_nat n) chunks
    /\ length chunks = (length iterator + (Z.to_nat n - 1)) / Z.to_nat n.
Proof. intros Hn. by apply yield_chunks_fuel_partition. Qed.

(** The step budget of [yield_chunks] is never the reason it stops: it
    returns the chunks or raises. *)
Lemma yield_chunks_within_budget iterator n :
  yield_chunks iterator n <> Unmodelled.
Proof.
  destruct (Z_le_dec 1 n) as [Hlow |]; [destruct (Z_le_dec n (Itertools.maxsize + 1)) |].
  - destruct (yield_chunks_partition iterator n) as (chunks & -> & _); done.
  - destruct iterator as [| edge iterator]; [done |].
    unfold yield_chunks. cbn [length yield_chunks_fuel yield_chunks_next].
    rewrite islice_rejects by lia. done.
  - destruct iterator as [| edge iterator]; [done |].
    unfold yield_chunks. cbn [length yield_chunks_fuel yield_chunks_next].
    rewrite islice_rejects by lia. done.
Qed.

End Chunking.

Example batch_ids_three : batch_ids ["a"; "b"; "c"] = Ok ["a;b;c"].
Proof. reflexivity. Qed.

Example yield_chunks_by_two :
  yield_chunks [1; 2; 3; 4; 5]%Z 2 = Ok [[1; 2]; [3; 4]; [5]]%Z.
Proof. reflexivity. Qed.

Example yield_chunks_zero_width :
  yield_chunks [1; 2]%Z 0 = Raise ValueError.
Proof. reflexivity. Qed.

Example yield_chunks_empty_any_width :
  yield_chunks (@nil Z) 0 = Ok [].
Proof. reflexivity. Qed.

(** ** Joining and splitting on the separator *)

Lemma split_clean sep s :
  mentions sep s = false -> split sep s = [s].
Proof.
  induction s as [| c s IH]; [done |]. cbn [mentions split].
  intros [Hc Hs]%orb_false_elim. rewrite Hc, (IH Hs). done.
Qed.

Lemma split_append sep s t :
  mentions sep s = false ->
  split sep (s +:+ String sep t) = s :: split sep t.
Proof.
  induction s as [| c s IH].
  - intros _. change ("" +:+ String sep t) with (String sep t).
    cbn [split]. by rewrite Ascii.eqb_refl.
  - cbn [mentions]. intros [Hc Hs]%orb_false_elim.
    change (String c s +:+ String sep t) with (String c (s +:+ String sep t)).
    cbn [split]. by rewrite Hc, (IH Hs).
Qed.

Lemma split_join (items : list string) :
  items <> [] ->
  Forall (fun s => mentions semicolon s = false) items ->
  split semicolon (join ";" items) = items.
Proof.
  induction items as [| s items IH]; [done |]. intros _ Hall.
  apply Forall_cons in Hall as [Hs Hitems].
  destruct items as [| s' items].
  - cbn. by apply split_clean.
  - change (join ";" (s :: s' :: items))
      with (s +:+ String semicolon (join ";" (s' :: items))).
    rewrite split_append by done. by rewrite IH.
Qed.

Lemma split_join_chunks (chunks : list (list string)) :
  Forall (fun chunk => 1 <= length chunk) chunks ->
  Forall (fun s => mentions semicolon s = false) (List.concat chunks) ->
  List.concat (map (split semicolon) (map (join ";") chunks)) = List.concat chunks.
Proof.
  induction chunks as [| chunk chunks IH]; [done |].
  intros [Hlen Hlens]%Forall_cons Hclean.
  cbn [List.concat] in Hclean. apply Forall_app in Hclean as [Hchunk Hrest].
  cbn [map List.concat]. rewrite split_join, IH; try done.
  destruct chunk; [cbn in Hlen; lia | done].
Qed.

(** ** The batching step *)

(** C1, as stated, fails twice: the empty input has fewer than 100
    identifiers and yields no batch at all, and an input of exactly 100
    identifiers one of which contains the separator is not recovered by
    splitting its batch. *)
Lemma batch_ids_claim_fails :
  (length (@nil string) < 100
   /\ exists batches, batch_ids [] = Ok batches /\ length batches <> 1)
  /\ (length tainted_ids = 100
      /\ exists batches,
           batch_ids tainted_ids = Ok batches
           /\ length batches = 1
           /\ List.concat (map (split semicolon) batches) <> tainted_ids).
Proof.
  split.
  - split; [cbn; lia |]. exists []. split; [reflexivity | cbn; lia].
  - split; [reflexivity |].
    eexists. split; [vm_compute; reflexivity |].
    split; [reflexivity |].
    intros Heq. apply (f_equal (@length string)) in Heq.
    vm_compute in Heq. discriminate.
Qed.

(** C1 (amended): the batching step partitions any input, in order, into
    batches of one to 100 identifiers, each joined by the separator; a
    non-empty input of fewer than 100 identifiers gives exactly one batch
    holding all of them, inputs of 100, 101 and 250 identifiers give 1, 2 and
    3 batches, and when no identifier contains the separator, splitting every
    batch and concatenating gives back the input. *)
Theorem batch_ids_partition (series_ids : list string) :
  exists chunks,
    batch_ids series_ids = Ok (map (join ";") chunks)
    /\ List.concat chunks = series_ids
    /\ Forall (fun chunk => 1 <= length chunk <= 100) chunks
    /\ length (map (join ";") chunks) = (length series_ids + 99) / 100
    /\ (1 <= length series_ids < 100 -> chunks = [series_ids])
    /\ (length series_ids = 100 -> length (map (join ";") chunks) = 1)
    /\ (length series_ids = 101 -> length (map (join ";") chunks) = 2)
    /\ (length series_ids = 250 -> length (map (join ";") chunks) = 3)
    /\ (Forall (fun s => mentions semicolon s = false) series_ids ->
        List.concat (map (split semicolon) (map (join ";") chunks)) = series_ids).
Proof.
  destruct (yield_chunks_partition series_ids 100) as (chunks & Hrun & Hcat & Hall & Hcount);
    [by vm_compute |].
  change (Z.to_nat 100) with 100 in *. change (100 - 1) with 99 in Hcount.
  exists chunks. unfold batch_ids. rewrite Hrun. cbn [mbind result_bind].
  rewrite length_map, Hcount.
  split; [done |]. split; [done |]. split; [done |]. split; [done |].
  split.
  { intros Hlen.
    assert (length chunks = 1) as Hone.
    { rewrite Hcount.
      replace (length series_ids + 99) with (length series_ids - 1 + 1 * 100) by lia.
      rewrite Nat.div_add, Nat.div_small by lia. done. }
    destruct chunks as [| chunk [| ? ?]]; try discriminate.
    cbn in Hcat. rewrite app_nil_r in Hcat. by rewrite Hcat. }
  split; [by intros -> |]. split; [by intros -> |]. split; [by intros -> |].
  intros Hclean. rewrite split_join_chunks.
  - done.
  - eapply Forall_impl; [exact Hall |]. cbn. lia.
  - by rewrite Hcat.
Qed.

Lemma batch_ids_partition_witness :
  exists chunks,
    batch_ids (idents 101) = Ok (map (join ";") chunks)
    /\ length (map (join ";") chunks) = 2
    /\ List.concat (map (split semicolon) (map (join ";") chunks)) = idents 101.
Proof.
  destruct (batch_ids_partition (idents 101))
    as (chunks & Hrun & _ & _ & _ & _ & _ & Htwo & _ & Hback).
  exists chunks. split; [exact Hrun |]. split.
  - apply Htwo. reflexivity.
  - apply Hback. vm_compute. repeat constructor.
Defined.

(** C3, as stated, fails: for the empty input the batching step yields no
    batch, not one batch with an empty payload, and the submission loop
    issues no request. *)
Lemma empty_input_claim_fails :
  batch_ids [] <> Ok [""]
  /\ forall q,
       sent (net (snd (Series.parse
                         (snd (Series.__post_init__ []
                                 {| self := q; net := service [] |})))))
       = [].
Proof. split; [discriminate | reflexivity]. Qed.

(** C3 (amended): for the empty input the batching step produces no batch;
    collection then returns the empty list and leaves the service untouched:
    nothing is sent. *)
Theorem empty_input_sends_nothing (st : state) :
  batch_ids [] = Ok []
  /\ exists st',
       Series.__post_init__ [] st = (Ok tt, st')
       /\ series_ids (self st') = Some []
       /\ net st' = net st
       /\ Series.parse st' = (Ok [], st').
Proof.
  split; [reflexivity |]. eexists. split; [reflexivity |]. by repeat split.
Qed.

(** ** Construction *)

Lemma truthy_some key : Py.truthy (Some key) = true <-> key <> "".
Proof.
  unfold Py.truthy. rewrite negb_true_iff. apply String.eqb_neq.
Qed.

Lemma configure_chosen cfg endpoint apikey key :
  Py.or apikey (APIKEY cfg) = Some key ->
  key <> "" ->
  BaseQuery._configure cfg endpoint apikey
  = (address ← Py.urljoin BaseQuery.ROOT
                 (if Py.endswith endpoint "/"%char then endpoint
                  else endpoint +:+ "/");
     Ok (key, <["out" := "json"]> (<["api_key" := key]> ∅), address)).
Proof.
  intros Hor Hkey. unfold BaseQuery._configure. rewrite Hor.
  apply truthy_some in Hkey. by rewrite Hkey.
Qed.

Lemma configure_missing cfg endpoint apikey :
  Py.truthy (Py.or apikey (APIKEY cfg)) = false ->
  BaseQuery._configure cfg endpoint apikey = Raise AssertionError.
Proof.
  intros Hfalse. unfold BaseQuery._configure.
  destruct (Py.or apikey (APIKEY cfg)) as [key |]; [| done]. by rewrite Hfalse.
Qed.

Lemma configure_stores cfg endpoint apikey key params address :
  BaseQuery._configure cfg endpoint apikey = Ok (key, params, address) ->
  Py.or apikey (APIKEY cfg) = Some key
  /\ key <> ""
  /\ params !! "api_key" = Some key.
Proof.
  unfold BaseQuery._configure.
  destruct (Py.or apikey (APIKEY cfg)) as [chosen |] eqn:Hor; [| done].
  destruct (Py.truthy (Some chosen)) eqn:Htruthy; [| done].
  destruct (Py.urljoin _ _) as [joined | |]; [| done | done].
  intros [= <- <- <-]. split; [done |]. split; [by apply truthy_some |].
  by rewrite lookup_insert_ne, lookup_insert_eq.
Qed.

(** No call of the class leaves an instance with batches: [__init__] runs
    [_configure] only. *)
Lemma new_never_batches cfg args keyword w q :
  fst (Series.new cfg args keyword w) = Ok q -> series_ids q = None.
Proof.
  unfold Series.new. cbn [fst].
  destruct (BaseQuery.bind_arguments args keyword) as [bound | |]; [| done | done].
  cbn [mbind result_bind].
  destruct (BaseQuery._configure cfg Series.endpoint bound) as [[[key params] address] | |];
    [| done | done].
  by intros [= <-].
Qed.

(** C2 at the call of the docstring, [Series(id1, id2)], and at a call with
    one identifier: the first is rejected when the arguments are bound, the
    second takes the identifier for the key; in neither are batches computed. *)
Theorem construction_skips_batching :
  Series.new keyed docstring_ids None (service []) = (Raise TypeError, service [])
  /\ exists q,
       Series.new keyed ["ELEC.GEN.ALL-AK-99.A"] None (service []) = (Ok q, service [])
       /\ apikey q = "ELEC.GEN.ALL-AK-99.A"
       /\ series_ids q = None
       /\ fst (Series.parse {| self := q; net := service [] |}) = Raise AttributeError.
Proof.
  split; [reflexivity |]. eexists. split; [reflexivity |]. by repeat split.
Qed.

Lemma new_configured cfg args keyword bound key w :
  BaseQuery.bind_arguments args keyword = Ok bound ->
  Py.or bound (APIKEY cfg) = Some key ->
  key <> "" ->
  exists q,
    Series.new cfg args keyword w = (Ok q, w)
    /\ apikey q = key
    /\ _params q !! "api_key" = Some key
    /\ series_ids q = None.
Proof.
  intros Hbind Hor Hkey. unfold Series.new. rewrite Hbind. cbn [mbind result_bind].
  rewrite (configure_chosen _ _ _ key) by done. cbn [mbind result_bind].
  eexists. split; [reflexivity |]. cbn. split; [done |]. split; [| done].
  by rewrite lookup_insert_ne, lookup_insert_eq.
Qed.

Lemma new_unconfigured cfg args keyword bound w :
  BaseQuery.bind_arguments args keyword = Ok bound ->
  Py.truthy (Py.or bound (APIKEY cfg)) = false ->
  Series.new cfg args keyword w = (Raise AssertionError, w).
Proof.
  intros Hbind Hfalse. unfold Series.new. rewrite Hbind. cbn [mbind result_bind].
  by rewrite configure_missing.
Qed.

(** C5: a call without a credential, in a process whose configuration holds
    none, raises the assertion error and leaves the service untouched; a
    credential from the argument (by keyword or by position) or, without an
    argument, from the configuration is stored, again without touching the
    service. *)
Theorem credential_resolution (cfg : settings) (w : world) :
  (APIKEY cfg = None ->
   Series.new cfg [] None w = (Raise AssertionError, w))
  /\ (forall key, key <> "" ->
        exists q, Series.new cfg [] (Some key) w = (Ok q, w)
                  /\ apikey q = key /\ _params q !! "api_key" = Some key)
  /\ (forall key, key <> "" ->
        exists q, Series.new cfg [key] None w = (Ok q, w)
                  /\ apikey q = key /\ _params q !! "api_key" = Some key)
  /\ (forall key, key <> "" -> APIKEY cfg = Some key ->
        exists q, Series.new cfg [] None w = (Ok q, w)
                  /\ apikey q = key /\ _params q !! "api_key" = Some key).
Proof.
  split; [| split; [| split]].
  - intros Hnone. apply (new_unconfigured _ _ _ None); [done |].
    unfold Py.or. cbn. by rewrite Hnone.
  - intros key Hkey.
    destruct (new_configured cfg [] (Some key) (Some key) key w) as (q & ? & ? & ? & _);
      [done | | done | by exists q].
    unfold Py.or. apply truthy_some in Hkey. by rewrite Hkey.
  - intros key Hkey.
    destruct (new_configured cfg [key] None (Some key) key w) as (q & ? & ? & ? & _);
      [done | | done | by exists q].
    unfold Py.or. apply truthy_some in Hkey. by rewrite Hkey.
  - intros key Hkey Hcfg.
    destruct (new_configured cfg [] None None key w) as (q & ? & ? & ? & _);
      [done | | done | by exists q].
    unfold Py.or. cbn. done.
Qed.

Lemma credential_resolution_witness :
  Series.new unkeyed [] None (service []) = (Raise AssertionError, service [])
  /\ exists q, Series.new keyed [] None (service []) = (Ok q, service [])
               /\ apikey q = "k" /\ _params q !! "api_key" = Some "k".
Proof.
  destruct (credential_resolution unkeyed (service [])) as (Hfail & _).
  destruct (credential_resolution keyed (service [])) as (_ & _ & _ & Hcfg).
  split.
  - apply Hfail. reflexivity.
  - apply (Hcfg "k"); [discriminate | reflexivity].
Defined.

(** C10: an empty string given as the credential, by keyword or by position,
    is handled as no credential: the call behaves as the call without it, so
    it stores a non-empty configuration value and raises the assertion error
    when the configuration value is missing or empty; no instance ever holds
    the empty string as its credential. *)
Theorem empty_credential_is_omitted (cfg : settings) (w : world) :
  Series.new cfg [] (Some "") w = Series.new cfg [] None w
  /\ Series.new cfg [""] None w = Series.new cfg [] None w
  /\ (forall key, key <> "" -> APIKEY cfg = Some key ->
        exists q, Series.new cfg [] (Some "") w = (Ok q, w) /\ apikey q = key)
  /\ (APIKEY cfg = None \/ APIKEY cfg = Some "" ->
        Series.new cfg [] (Some "") w = (Raise AssertionError, w))
  /\ (forall args keyword q,
        fst (Series.new cfg args keyword w) = Ok q -> apikey q <> "").
Proof.
  split; [reflexivity |]. split; [reflexivity |]. split; [| split].
  - intros key Hkey Hcfg.
    destruct (new_configured cfg [] (Some "") (Some "") key w) as (q & ? & ? & _);
      [done | | done | by exists q].
    unfold Py.or. cbn. done.
  - intros Hcfg. apply (new_unconfigured _ _ _ (Some "")); [done |].
    unfold Py.or. cbn. by destruct Hcfg as [-> | ->].
  - intros args keyword q. unfold Series.new. cbn [fst].
    destruct (BaseQuery.bind_arguments args keyword) as [bound | |]; [| done | done].
    cbn [mbind result_bind].
    destruct (BaseQuery._configure cfg Series.endpoint bound)
      as [[[key params] address] | |] eqn:Hconf; [| done | done].
    intros [= <-]. cbn. by apply configure_stores in Hconf as (_ & ? & _).
Qed.

Lemma empty_credential_is_omitted_witness :
  (exists q, Series.new keyed [] (Some "") (service []) = (Ok q, service [])
             /\ apikey q = "k")
  /\ Series.new unkeyed [] (Some "") (service []) = (Raise AssertionError, service []).
Proof.
  destruct (empty_credential_is_omitted keyed (service [])) as (_ & _ & Hstore & _).
  destruct (empty_credential_is_omitted unkeyed (service [])) as (_ & _ & _ & Hfail & _).
  split.
  - apply (Hstore "k"); [discriminate | reflexivity].
  - apply Hfail. left. reflexivity.
Defined.

(** ** The two verbs *)

(** C9: [_get] sends the caller's mapping merged over the stored defaults,
    the caller's value winning wherever both have the key, and [_post] sends
    the stored defaults as parameters and the caller's mapping as the body;
    after either call the instance, and so its stored defaults, is as it was
    before. *)
Theorem verbs_keep_defaults (data : gmap string string) (st : state) :
  (exists sent_request,
     self (snd (BaseQuery._get data st)) = self st
     /\ sent (net (snd (BaseQuery._get data st))) = sent (net st) ++ [sent_request]
     /\ req_verb sent_request = GET
     /\ req_data sent_request = None
     /\ (forall k v, data !! k = Some v -> req_params sent_request !! k = Some v)
     /\ (forall k, data !! k = None ->
           req_params sent_request !! k = _params (self st) !! k))
  /\ (exists sent_request,
        self (snd (BaseQuery._post data st)) = self st
        /\ sent (net (snd (BaseQuery._post data st))) = sent (net st) ++ [sent_request]
        /\ req_verb sent_request = POST
        /\ req_params sent_request = _params (self st)
        /\ req_data sent_request = Some data).
Proof.
  split.
  - exists {| req_verb := GET; req_url := url (self st);
              req_params := data ∪ _params (self st); req_data := None |}.
    unfold BaseQuery._get, request_, exchange.
    destruct (tape (net st)); cbn; repeat split; try done.
    + intros k v Hk. by apply lookup_union_Some_l.
    + intros k Hk. by rewrite lookup_union_r.
    + intros k v Hk. by apply lookup_union_Some_l.
    + intros k Hk. by rewrite lookup_union_r.
  - exists {| req_verb := POST; req_url := url (self st);
              req_params := _params (self st); req_data := Some data |}.
    unfold BaseQuery._post, request_, exchange.
    destruct (tape (net st)); cbn; by repeat split.
Qed.

(** ** Collection *)

Lemma collect_mapping group output :
  response_mapping group = true ->
  Series.collect group output = Ok (output ++ series_list group).
Proof.
  unfold response_mapping, Series.collect, series_list, Py.get.
  destruct group as [| | | | | |fields]; try done.
  destruct (Py.lookup "series" fields) as [[| | | | |items|] |]; try done.
Qed.

Lemma parse_loop_answered q batch pending output group answers log :
  Series.parse_loop (batch :: pending) output
    {| self := q; net := {| sent := log; tape := Ok group :: answers |} |}
  = (output' ← lift (Series.collect group output);
     Series.parse_loop pending output')
      {| self := q;
         net := {| sent := log ++ [batch_request q batch]; tape := answers |} |}.
Proof. reflexivity. Qed.

(** When every batch is answered by a response mapping, the loop appends the
    declared series lists in batch order and has posted one request per
    batch, in batch order. *)
Lemma parse_loop_collects q :
  forall batches groups output log rest,
    length groups = length batches ->
    Forall (fun group => response_mapping group = true) groups ->
    Series.parse_loop batches output
      {| self := q; net := {| sent := log; tape := map Ok groups ++ rest |} |}
    = (Ok (output ++ List.concat (map series_list groups)),
       {| self := q;
          net := {| sent := log ++ map (batch_request q) batches; tape := rest |} |}).
Proof.
  induction batches as [| batch batches IH]; intros groups output log rest Hlen Hall.
  - destruct groups; [| done]. cbn. by rewrite !app_nil_r.
  - destruct groups as [| group groups]; [done |].
    apply Forall_cons in Hall as [Hgroup Hall]. injection Hlen as Hlen.
    cbn [map app]. rewrite parse_loop_answered.
    unfold mbind at 1, M_bind, lift. rewrite collect_mapping by done.
    rewrite IH by done. cbn [map List.concat]. by rewrite <- !app_assoc.
Qed.

Lemma post_keeps_instance data st :
  self (snd (BaseQuery._post data st)) = self st.
Proof.
  unfold BaseQuery._post, request_, exchange. by destruct (tape (net st)).
Qed.

Lemma parse_loop_keeps_instance pending :
  forall output st, self (snd (Series.parse_loop pending output st)) = self st.
Proof.
  induction pending as [| batch pending IH]; intros output st; [done |].
  cbn [Series.parse_loop]. unfold mbind at 1, M_bind.
  pose proof (post_keeps_instance {[ "series_id" := batch ]} st) as Hpost.
  destruct (BaseQuery._post {[ "series_id" := batch ]} st) as [[group | e |] st1];
    cbn [snd] in *; try done.
  unfold mbind, M_bind, lift.
  destruct (Series.collect group output) as [output' | e |]; cbn [snd]; try done.
  by rewrite IH.
Qed.

(** Once assigned, the batches stay: collection and both views leave the
    instance as it was. *)
Lemma views_keep_instance (include_metadata : bool) st :
  self (snd (Series.parse st)) = self st
  /\ self (snd (Series.to_dict st)) = self st
  /\ self (snd (Series.to_dataframe include_metadata st)) = self st.
Proof.
  assert (self (snd (Series.parse st)) = self st) as Hparse.
  { unfold Series.parse. destruct (series_ids (self st)); [| done].
    apply parse_loop_keeps_instance. }
  split; [done |]. split; [done |].
  unfold Series.to_dataframe, mbind, M_bind, lift.
  destruct (Series.parse st) as [[records | e |] st1]; cbn [snd] in *; try done.
  by destruct (Series.frames include_metadata records []) as [data | e |].
Qed.

(** C6: a response mapping without the series field adds nothing to the
    output and raises nothing, and the loop goes on with the batches that
    remain, from the same output. *)
Theorem missing_series_contributes_nothing
    (fields : list (string * json)) (batch : string) (pending : list string)
    (output : list json) (q : instance) (log : list request)
    (answers : list (result json)) :
  Py.lookup "series" fields = None ->
  Series.collect (JObj fields) output = Ok output
  /\ Series.parse_loop (batch :: pending) output
       {| self := q; net := {| sent := log; tape := Ok (JObj fields) :: answers |} |}
     = Series.parse_loop pending output
         {| self := q;
            net := {| sent := log ++ [batch_request q batch]; tape := answers |} |}.
Proof.
  intros Hmissing.
  assert (Series.collect (JObj fields) output = Ok output) as Hcollect.
  { unfold Series.collect, Py.get. rewrite Hmissing. cbn. by rewrite app_nil_r. }
  split; [done |]. rewrite parse_loop_answered.
  unfold mbind at 1, M_bind, lift. by rewrite Hcollect.
Qed.

(** C7: when the batches are answered by response mappings, collection, and
    so [to_dict], returns the series lists of the responses appended in batch
    order, each in its own order; the result is determined by the series
    lists alone. *)
Theorem collection_flattens
    (st : state) (batches : list string) (groups : list json)
    (rest : list (result json)) :
  series_ids (self st) = Some batches ->
  tape (net st) = map Ok groups ++ rest ->
  length groups = length batches ->
  Forall (fun group => response_mapping group = true) groups ->
  fst (Series.parse st) = Ok (List.concat (map series_list groups))
  /\ fst (Series.to_dict st) = Ok (List.concat (map series_list groups))
  /\ self (snd (Series.to_dict st)) = self st
  /\ sent (net (snd (Series.to_dict st)))
     = sent (net st) ++ map (batch_request (self st)) batches.
Proof.
  intros Hids Htape Hlen Hall. unfold Series.to_dict, Series.parse. rewrite Hids.
  destruct st as [q [log answers]]. cbn [self net tape sent] in *. subst answers.
  rewrite (parse_loop_collects q batches groups [] log rest) by done.
  by repeat split.
Qed.

Lemma missing_series_contributes_nothing_witness :
  Series.parse_loop ["A;B"; "C"] [record_a]
    {| self := sample_query;
       net := {| sent := []; tape := [Ok answer_bare; Ok answer_ab] |} |}
  = Series.parse_loop ["C"] [record_a]
      {| self := sample_query;
         net := {| sent := [] ++ [batch_request sample_query "A;B"];
                   tape := [Ok answer_ab] |} |}.
Proof.
  apply (missing_series_contributes_nothing
           [("request", JObj [("command", JStr "series")])]).
  reflexivity.
Defined.

Lemma collection_flattens_witness :
  fst (Series.to_dict
         {| self := sample_query; net := service [Ok answer_ab; Ok answer_bare] |})
  = Ok [record_a; record_b].
Proof.
  apply (collection_flattens
           {| self := sample_query; net := service [Ok answer_ab; Ok answer_bare] |}
           ["A;B"; "C"] [answer_ab; answer_bare] []).
  - reflexivity.
  - reflexivity.
  - reflexivity.
  - repeat constructor.
Defined.

(** ** The table *)

(** C4 at a query built from no identifier, the service answering with an
    empty series list: the call [Series()] leaves no batches, so both views
    raise [AttributeError]; once [__post_init__()] has run, and also when the
    single empty batch of the scenario is put in place by hand, the list view
    is empty but the table view raises [ValueError], from [pd.concat] of no
    frame. *)
Theorem empty_query_views :
  exists q,
    Series.new keyed [] None (service [Ok answer_none]) = (Ok q, service [Ok answer_none])
    /\ (let st := {| self := q; net := service [Ok answer_none] |} in
        fst (Series.to_dict st) = Raise AttributeError
        /\ fst (Series.to_dataframe true st) = Raise AttributeError
        /\ (let st' := snd (Series.__post_init__ [] st) in
            fst (Series.to_dict st') = Ok []
            /\ fst (Series.to_dataframe true st') = Raise ValueError
            /\ fst (Series.to_dataframe false st') = Raise ValueError))
    /\ (let st := {| self := {| apikey := apikey q; _params := _params q;
                               url := url q; series_ids := Some [""] |};
                     net := service [Ok answer_none] |} in
        fst (Series.to_dict st) = Ok []
        /\ sent (net (snd (Series.to_dict st))) = [batch_request q ""]
        /\ fst (Series.to_dataframe true st) = Raise ValueError
        /\ fst (Series.to_dataframe false st) = Raise ValueError).
Proof.
  eexists. split; [reflexivity |]. by repeat split.
Qed.

Section Cells.

Implicit Types (labels : list string) (row : list cell) (label key : string).

Lemma has_label_In labels label :
  Pandas.has_label labels label = true <-> In label labels.
Proof.
  unfold Pandas.has_label. rewrite existsb_exists. split.
  - intros (l & Hin & Heq). apply String.eqb_eq in Heq. by subst.
  - intros Hin. exists label. split; [done | apply String.eqb_refl].
Qed.

Lemma has_label_not_In labels label :
  Pandas.has_label labels label = false <-> ~ In label labels.
Proof.
  rewrite <- has_label_In. by destruct (Pandas.has_label labels label).
Qed.

Lemma length_set_cell labels row key c :
  length (Pandas.set_cell labels row key c) = length row.
Proof.
  revert row. induction labels as [| l labels IH]; intros [| x row]; try done.
  cbn [Pandas.set_cell]. destruct (String.eqb l key); [done |].
  cbn [length]. by rewrite IH.
Qed.

Lemma cell_at_set_cell_eq labels row key c :
  In key labels -> length row = length labels ->
  Pandas.cell_at labels (Pandas.set_cell labels row key c) key = c.
Proof.
  revert row. induction labels as [| l labels IH]; intros [| x row]; try done.
  intros Hin [= Hlen]. cbn [Pandas.set_cell Pandas.cell_at].
  destruct (String.eqb l key) eqn:Heq.
  - done.
  - apply IH; [| done].
    destruct Hin as [-> | Hin]; [| done]. by rewrite String.eqb_refl in Heq.
Qed.

Lemma cell_at_set_cell_ne labels row key label c :
  label <> key ->
  Pandas.cell_at labels (Pandas.set_cell labels row key c) label
  = Pandas.cell_at labels row label.
Proof.
  intros Hne. revert row.
  induction labels as [| l labels IH]; intros [| x row]; try done.
  cbn [Pandas.set_cell]. destruct (String.eqb l key) eqn:Heq.
  - apply String.eqb_eq in Heq as ->. cbn [Pandas.cell_at].
    replace (String.eqb key label) with false; [done |].
    symmetry. apply String.eqb_neq. congruence.
  - cbn [Pandas.cell_at]. by rewrite IH.
Qed.

Lemma cell_at_snoc_eq labels row key c :
  ~ In key labels -> length row = length labels ->
  Pandas.cell_at (labels ++ [key]) (row ++ [c]) key = c.
Proof.
  revert row. induction labels as [| l labels IH]; intros [| x row]; try done.
  - intros _ _. cbn. by rewrite String.eqb_refl.
  - intros Hnot [= Hlen]. cbn [app Pandas.cell_at].
    replace (String.eqb l key) with false.
    + apply IH; [| done]. intros Hin. apply Hnot. by right.
    + symmetry. apply String.eqb_neq. intros ->. apply Hnot. by left.
Qed.

Lemma cell_at_snoc_ne labels row key label c :
  label <> key -> length row = length labels ->
  Pandas.cell_at (labels ++ [key]) (row ++ [c]) label
  = Pandas.cell_at labels row label.
Proof.
  intros Hne. revert row.
  induction labels as [| l labels IH]; intros [| x row]; try done.
  - intros _. cbn. replace (String.eqb key label) with false; [done |].
    symmetry. apply String.eqb_neq. congruence.
  - intros [= Hlen]. cbn [app Pandas.cell_at].
    destruct (String.eqb l label); [done | by apply IH].
Qed.

(** Reading a row that was laid out along [labels] by [f]. *)
Lemma cell_at_laid_out labels (f : string -> cell) label :
  In label labels -> Pandas.cell_at labels (map f labels) label = f label.
Proof.
  induction labels as [| l labels IH]; [done |]. intros Hin.
  cbn [map Pandas.cell_at]. destruct (String.eqb l label) eqn:Heq.
  - by apply String.eqb_eq in Heq as ->.
  - apply IH. destruct Hin as [-> | Hin]; [| done].
    by rewrite String.eqb_refl in Heq.
Qed.

End Cells.

Section Columns.

Implicit Types (df : DataFrame) (label key : string) (v : json) (c : cell).

Lemma set_column_rows df key v :
  length (rows (Pandas.set_column df key v)) = length (rows df).
Proof.
  unfold Pandas.set_column.
  destruct (Pandas.has_label (columns df) key); cbn; by rewrite length_map.
Qed.

Lemma set_column_labels df key v label :
  In label (columns (Pandas.set_column df key v))
  <-> In label (columns df) \/ label = key.
Proof.
  unfold Pandas.set_column.
  destruct (Pandas.has_label (columns df) key) eqn:Hhas; cbn [columns].
  - apply has_label_In in Hhas. split; [by left |].
    by intros [? | ->].
  - rewrite in_app_iff. cbn.
    split; [intros [? | [-> | []]] | intros [? | ->]]; auto.
Qed.

Lemma set_column_rectangular df key v :
  rectangular df -> rectangular (Pandas.set_column df key v).
Proof.
  unfold rectangular, Pandas.set_column. intros Hrect.
  destruct (Pandas.has_label (columns df) key); cbn [rows columns];
    apply List.Forall_map; (eapply List.Forall_impl; [| exact Hrect]);
    cbn; intros row Hrow.
  - by rewrite length_set_cell.
  - rewrite !length_app. cbn. lia.
Qed.

Lemma set_column_own df key v :
  rectangular df -> constant_column (Pandas.set_column df key v) key (Stored v).
Proof.
  unfold rectangular, constant_column, Pandas.set_column. intros Hrect.
  destruct (Pandas.has_label (columns df) key) eqn:Hhas; cbn [rows columns];
    apply List.Forall_map; (eapply List.Forall_impl; [| exact Hrect]);
    cbn; intros row Hrow.
  - apply cell_at_set_cell_eq; [by apply has_label_In | done].
  - apply cell_at_snoc_eq; [by apply has_label_not_In | done].
Qed.

Lemma set_column_other df key v label c :
  label <> key -> rectangular df ->
  constant_column df label c ->
  constant_column (Pandas.set_column df key v) label c.
Proof.
  unfold rectangular, constant_column, Pandas.set_column. intros Hne Hrect Hconst.
  pose proof (conj Hrect Hconst) as Hboth. apply Forall_and in Hboth.
  destruct (Pandas.has_label (columns df) key); cbn [rows columns];
    apply List.Forall_map; (eapply List.Forall_impl; [| exact Hboth]);
    cbn; intros row [Hrow Hcell].
  - by rewrite cell_at_set_cell_ne.
  - by rewrite cell_at_snoc_ne.
Qed.

(** [assign] with scalar values under distinct keywords: every keyword is a
    column that holds its value in every row, the columns before it stay,
    and a column that no keyword names keeps what it held. *)
Lemma assign_fields_columns (fields : list (string * json)) :
  forall df,
    forallb (fun field => Pandas.scalar (snd field)) fields = true ->
    NoDup (map fst fields) ->
    rectangular df ->
    exists df',
      Pandas.assign_fields df fields = Ok df'
      /\ rectangular df'
      /\ length (rows df') = length (rows df)
      /\ (forall label,
            In label (columns df')
            <-> In label (columns df) \/ In label (map fst fields))
      /\ (forall label v, In (label, v) fields -> constant_column df' label (Stored v))
      /\ (forall label c, ~ In label (map fst fields) ->
            constant_column df label c -> constant_column df' label c).
Proof.
  induction fields as [| [key v] fields IH]; intros df Hscalar Hdistinct Hrect.
  - exists df. cbn. repeat split; try done; tauto.
  - cbn [forallb snd] in Hscalar. apply andb_prop in Hscalar as [Hv Hscalar].
    cbn [map fst] in Hdistinct. apply NoDup_cons in Hdistinct as [Hfresh Hdistinct].
    rewrite list_elem_of_In in Hfresh.
    destruct (IH (Pandas.set_column df key v))
      as (df' & Hrun & Hrect' & Hrows & Hlabels & Hown & Hkeep);
      [done | done | by apply set_column_rectangular |].
    exists df'. cbn [Pandas.assign_fields]. rewrite Hv.
    split; [done |]. split; [done |].
    split; [by rewrite Hrows, set_column_rows |].
    split; [| split].
    + intros label. rewrite Hlabels, set_column_labels. cbn [map fst In].
      split; [intros [[? | ->] | ?] | intros [? | [<- | ?]]]; auto.
    + intros label w [[= <- <-] | Hin].
      * apply Hkeep; [done | by apply set_column_own].
      * by apply Hown.
    + intros label c Hnot Hconst. cbn [map fst In] in Hnot.
      apply Hkeep; [tauto |].
      apply set_column_other; [| done | done]. intros ->. tauto.
Qed.

End Columns.

Section Frames.

Lemma distinct_NoDup (keys : list string) :
  distinct keys = true -> NoDup keys.
Proof.
  induction keys as [| key keys IH]; [constructor |].
  cbn [distinct]. intros [Hfresh Hrest]%andb_prop.
  apply negb_true_iff, has_label_not_In in Hfresh.
  apply NoDup_cons. rewrite list_elem_of_In. auto.
Qed.

Lemma remove_keys key (fields : list (string * json)) k :
  In k (map fst (Py.remove key fields)) -> In k (map fst fields).
Proof.
  induction fields as [| [k' v] fields IH]; [done |]. cbn [Py.remove].
  destruct (String.eqb k' key); cbn [map fst In]; [by right | tauto].
Qed.

Lemma remove_NoDup key (fields : list (string * json)) :
  NoDup (map fst fields) -> NoDup (map fst (Py.remove key fields)).
Proof.
  induction fields as [| [k v] fields IH]; [done |]. cbn [map fst Py.remove].
  intros [Hfresh Hrest]%NoDup_cons. rewrite list_elem_of_In in Hfresh.
  destruct (String.eqb k key); [done |]. cbn [map fst].
  apply NoDup_cons. rewrite list_elem_of_In. split; [| auto].
  intros Hin. by apply Hfresh, (remove_keys key).
Qed.

Lemma rows_of_observations (items : list json) :
  forallb observation items = true ->
  exists body,
    Pandas.rows_of 2 items = Ok body
    /\ length body = length items
    /\ Forall (fun row => length row = 2) body.
Proof.
  induction items as [| item items IH]; intros Hall.
  - exists []. by repeat split.
  - cbn [forallb] in Hall. apply andb_prop in Hall as [Hitem Hall].
    destruct (IH Hall) as (body & Hrun & Hlen & Hrows).
    destruct item as [| | | | | [| period [| value [| ? ?]]] |]; try done.
    exists ([Stored period; Stored value] :: body). cbn [Pandas.rows_of].
    cbn. rewrite Hrun. cbn. repeat split; [by rewrite Hlen | by constructor].
Qed.

Lemma series_record_parts (fields : list (string * json)) :
  series_record (JObj fields) = true ->
  distinct (map fst fields) = true
  /\ observed (JObj fields) = true
  /\ forallb (fun field => Pandas.scalar (snd field)) (Py.remove "data" fields) = true
  /\ Pandas.has_label (map fst (Py.remove "data" fields)) "self" = false.
Proof.
  cbn [series_record].
  intros [[[Hdistinct Hobserved]%andb_prop Hscalar]%andb_prop Hself]%andb_prop.
  repeat split; try done.
  apply negb_true_iff, has_label_not_In in Hself. apply has_label_not_In.
  intros Hin. by apply Hself, (remove_keys "data").
Qed.

Lemma series_record_observed (record : json) :
  series_record record = true -> observed record = true.
Proof.
  destruct record as [| | | | | |fields]; try done.
  intros Hrecord. by apply series_record_parts in Hrecord as (_ & ? & _).
Qed.

(** The loop body on a series record. *)
Lemma frame_related (include_metadata : bool) (record : json) :
  series_record record = true ->
  exists df,
    Series.frame include_metadata record = Ok df
    /\ rectangular df
    /\ frame_of include_metadata record df.
Proof.
  destruct record as [| | | | | |fields]; try done. intros Hrecord.
  destruct (series_record_parts fields Hrecord) as (Hdistinct & Hdata & Hscalar & Hself).
  cbn [observed] in Hdata.
  destruct (Py.lookup "data" fields) as [[| | | | |items|] |] eqn:Hlookup; try done.
  destruct (rows_of_observations items Hdata) as (body & Hrun & Hlen & Hrows).
  unfold Series.frame, Py.pop. rewrite Hlookup. cbn [mbind result_bind].
  unfold Pandas.DataFrame_. cbn [length]. rewrite Hrun. cbn [mbind result_bind].
  set (df := {| columns := ["period"; "value"];
                index := seqZ 0 (Z.of_nat (length body)); rows := body |}).
  assert (rectangular df) as Hrect by exact Hrows.
  destruct include_metadata.
  - destruct (assign_fields_columns (Py.remove "data" fields) df)
      as (df' & Hassign & Hrect' & Hcount & Hlabels & Hown & _);
      [done | by apply remove_NoDup, distinct_NoDup | done |].
    exists df'. split; [unfold Pandas.assign; by rewrite Hself |]. split; [done |].
    unfold frame_of, observations, metadata. rewrite Hlookup, Hcount.
    split; [done |]. split; [| done].
    intros label. rewrite Hlabels. cbn [df columns In].
    split; [intros [[<- | [<- | []]] | ?] | intros [-> | [-> | ?]]]; auto.
  - exists df. split; [done |]. split; [done |].
    unfold frame_of, observations. by rewrite Hlookup.
Qed.

Lemma frames_related (include_metadata : bool) (records : list json) :
  forall data,
    Forall (fun record => series_record record = true) records ->
    exists dfs,
      Series.frames include_metadata records data = Ok (data ++ dfs)
      /\ Forall2 (fun record df => rectangular df /\ frame_of include_metadata record df)
           records dfs.
Proof.
  induction records as [| record records IH]; intros data Hall.
  - exists []. cbn. rewrite app_nil_r. by split.
  - apply Forall_cons in Hall as [Hrecord Hall].
    destruct (frame_related include_metadata record Hrecord) as (df & Hrun & Hrect & Hrel).
    destruct (IH (data ++ [df]) Hall) as (dfs & Hloop & Hrels).
    exists (df :: dfs). cbn [Series.frames]. rewrite Hrun. cbn [mbind result_bind].
    rewrite Hloop, <- app_assoc. split; [done |]. by constructor.
Qed.


Lemma merge_labels_period_value (objs : list DataFrame) :
  Forall (fun df => columns df = ["period"; "value"]) objs ->
  Pandas.merge_labels ["period"; "value"] objs = ["period"; "value"].
Proof.
  induction 1 as [| df objs Hdf _ IH]; [done |].
  cbn [Pandas.merge_labels]. rewrite Hdf. exact IH.
Qed.




End Frames.

Lemma rows_of_cells (items : list json) :
  forallb observation items = true ->
  Pandas.rows_of 2 items = Ok (map cells_of items).
Proof.
  induction items as [| item items IH]; [done |].
  cbn [forallb]. intros [Hitem Hitems]%andb_prop.
  destruct item as [| | | | | [| period [| value [| ? ?]]] |]; try done.
  cbn [Pandas.rows_of]. rewrite (IH Hitems). done.
Qed.

Lemma frame_plain (record : json) :
  observed record = true ->
  Series.frame false record = Ok (plain_frame record)
  /\ Forall (fun row => length row = 2) (rows (plain_frame record)).
Proof.
  destruct record as [| | | | | |fields]; try done. cbn [observed].
  unfold Series.frame, Py.pop, plain_frame, observations.
  destruct (Py.lookup "data" fields) as [[| | | | |items|] |]; try done.
  intros Hdata.
  cbn [mbind result_bind]. unfold Pandas.DataFrame_. cbn [length].
  rewrite (rows_of_cells items Hdata). cbn [mbind result_bind rows].
  rewrite length_map. split; [done |].
  apply List.Forall_map. rewrite forallb_forall in Hdata.
  apply List.Forall_forall. intros item Hin. specialize (Hdata item Hin).
  by destruct item as [| | | | | [| period [| value [| ? ?]]] |].
Qed.

Lemma frames_plain (records : list json) :
  forall data,
    Forall (fun record => observed record = true) records ->
    Series.frames false records data = Ok (data ++ map plain_frame records).
Proof.
  induction records as [| record records IH]; intros data Hall.
  - cbn. by rewrite app_nil_r.
  - apply Forall_cons in Hall as [Hrecord Hall].
    destruct (frame_plain record Hrecord) as [Hrun _].
    cbn [Series.frames map]. rewrite Hrun. cbn [mbind result_bind].
    by rewrite IH, <- app_assoc.
Qed.

Lemma relabel_pairs (body : list (list cell)) :
  Forall (fun row => length row = 2) body ->
  map (fun row => map (Pandas.cell_at ["period"; "value"] row) ["period"; "value"])
    body
  = body.
Proof.
  induction 1 as [| row body Hrow _ IH]; [done |].
  rewrite map_cons, IH.
  by destruct row as [| period [| value [| ? ?]]].
Qed.

Lemma reindex_plain (record : json) :
  observed record = true ->
  Pandas.reindex ["period"; "value"] (plain_frame record)
  = map cells_of (observations record).
Proof.
  intros Hrecord. destruct (frame_plain record Hrecord) as [_ Hrows].
  unfold Pandas.reindex. by apply relabel_pairs.
Qed.

Lemma plain_frames_labels (records : list json) :
  records <> [] ->
  Pandas.merge_labels [] (map plain_frame records) = ["period"; "value"].
Proof.
  destruct records as [| record records]; [done |]. intros _.
  cbn [map Pandas.merge_labels]. apply merge_labels_period_value.
  induction records; by constructor.
Qed.

Lemma plain_frames_rows (records : list json) :
  Forall (fun record => observed record = true) records ->
  map (Pandas.reindex ["period"; "value"]) (map plain_frame records)
  = map (fun record => map cells_of (observations record)) records.
Proof.
  induction 1 as [| record records Hrecord _ IH]; [done |].
  cbn [map]. by rewrite reindex_plain, IH.
Qed.

Lemma reindex_counts (include_metadata : bool) (labels : list string)
    (records : list json) (dfs : list DataFrame) :
  Forall2 (fun record df => rectangular df /\ frame_of include_metadata record df)
    records dfs ->
  Forall2 (fun record (segment : list (list cell)) =>
             length segment = length (observations record))
    records (map (Pandas.reindex labels) dfs).
Proof.
  induction 1 as [| record df records dfs [_ [Hcount _]] _ IH]; [constructor |].
  cbn [map]. constructor; [| done]. unfold Pandas.reindex. by rewrite length_map.
Qed.

Lemma to_dataframe_after_parse (include_metadata : bool) (st : state)
    (records : list json) :
  fst (Series.parse st) = Ok records ->
  fst (Series.to_dataframe include_metadata st)
  = (data ← Series.frames include_metadata records [];
     Pandas.concat data true).
Proof.
  unfold Series.to_dataframe, mbind, M_bind, lift.
  destruct (Series.parse st) as [[found | e |] st']; try done.
  cbn [fst]. intros [= ->].
  by destruct (Series.frames include_metadata records []).
Qed.

Lemma concat_frames (objs : list DataFrame) :
  objs <> [] ->
  Pandas.concat objs true
  = Ok {| columns := Pandas.merge_labels [] objs;
          index := seqZ 0 (Z.of_nat (length (List.concat
                     (map (Pandas.reindex (Pandas.merge_labels [] objs)) objs))));
          rows := List.concat
                    (map (Pandas.reindex (Pandas.merge_labels [] objs)) objs) |}.
Proof. by destruct objs. Qed.





Example table_of_two_records :
  fst (Series.to_dataframe true
         {| self := sample_query; net := service [Ok answer_ab; Ok answer_bare] |})
  = Ok {| columns := ["period"; "value"; "series_id"; "units"; "source"];
          index := [0; 1; 2]%Z;
          rows :=
            [ [Stored (JStr "2015"); Stored (JInt 3); Stored (JStr "A");
               Stored (JStr "quads"); NaN];
              [Stored (JStr "2014"); Stored (JInt 2); Stored (JStr "A");
               Stored (JStr "quads"); NaN];
              [Stored (JStr "2015"); Stored (JFloat "1.5"); Stored (JStr "B"); NaN;
               Stored (JStr "AEO")] ] |}.
Proof. reflexivity. Qed.


(** * Further properties *)

(** ** [yield_chunks] at any width *)

Section ChunkWidth.

Context {A : Type}.
Implicit Types (iterator : list A) (n : Z).

Lemma yield_chunks_fuel_full n :
  (1 <= n <= Itertools.maxsize + 1)%Z ->
  forall fuel iterator chunks front final,
    length iterator <= fuel ->
    yield_chunks_fuel fuel iterator n = Ok chunks ->
    chunks = front ++ [final] ->
    Forall (fun chunk => length chunk = Z.to_nat n) front.
Proof.
  intros Hn. induction fuel as [| fuel IH];
    intros iterator chunks front final Hlen Hrun Hsplit.
  - destruct iterator; [| cbn in Hlen; lia].
    rewrite yield_chunks_fuel_nil in Hrun. injection Hrun as <-.
    by destruct front.
  - destruct iterator as [| edge iterator].
    { rewrite yield_chunks_fuel_nil in Hrun. injection Hrun as <-.
      by destruct front. }
    rewrite yield_chunks_fuel_cons in Hrun by done.
    destruct (yield_chunks_fuel fuel (drop (Z.to_nat (n - 1)) iterator) n)
      as [tail | |] eqn:Htail; try done.
    cbn in Hrun. injection Hrun as <-.
    destruct front as [| chunk front]; [constructor |].
    cbn [app] in Hsplit. injection Hsplit as <- ->.
    constructor.
    + destruct (drop (Z.to_nat (n - 1)) iterator) as [| x pending] eqn:Hdrop.
      { rewrite yield_chunks_fuel_nil in Htail. injection Htail as Htail.
        by destruct front. }
      assert (Z.to_nat (n - 1) < length iterator) as Hlong.
      { apply (f_equal (@length A)) in Hdrop. rewrite length_drop in Hdrop.
        cbn in Hdrop. lia. }
      cbn [length]. rewrite length_take. lia.
    + eapply (IH _ _ front final); [| exact Htail | done].
      rewrite length_drop. cbn in Hlen. lia.
Qed.

(** X1: for a width between 1 and [sys.maxsize + 1], the generator yields a
    partition of the input in order: no chunk is empty, none is longer than
    the width, every chunk before the last has exactly the width, and their
    number is the length divided by the width, rounded up. *)
Theorem yield_chunks_full_width iterator n :
  (1 <= n <= Itertools.maxsize + 1)%Z ->
  exists chunks,
    yield_chunks iterator n = Ok chunks
    /\ List.concat chunks = iterator
    /\ Forall (fun chunk => 1 <= length chunk <= Z.to_nat n) chunks
    /\ length chunks = (length iterator + (Z.to_nat n - 1)) / Z.to_nat n
    /\ forall front final,
         chunks = front ++ [final] ->
         Forall (fun chunk => length chunk = Z.to_nat n) front.
Proof.
  intros Hn.
  destruct (yield_chunks_fuel_partition n Hn (length iterator) iterator)
    as (chunks & Hrun & Hcat & Hall & Hcount); [done |].
  exists chunks. repeat split; try done.
  intros front final Hsplit.
  by apply (yield_chunks_fuel_full n Hn (length iterator) iterator chunks front final).
Qed.

(** X2: for a width below 1 or above [sys.maxsize + 1], draining the
    generator raises [ValueError] as soon as there is one item, and yields
    nothing, without raising, when there is none. *)
Theorem yield_chunks_bad_width iterator n :
  (n < 1 \/ Itertools.maxsize + 1 < n)%Z ->
  yield_chunks iterator n
  = match iterator with
    | [] => Ok []
    | _ :: _ => Raise ValueError
    end.
Proof.
  intros Hn. destruct iterator as [| edge iterator]; [done |].
  unfold yield_chunks. cbn [length yield_chunks_fuel yield_chunks_next].
  rewrite islice_rejects by lia. done.
Qed.

End ChunkWidth.

Lemma yield_chunks_full_width_witness :
  exists chunks,
    yield_chunks [1; 2; 3; 4; 5; 6; 7]%Z 3 = Ok chunks
    /\ length chunks = 3
    /\ forall front final,
         chunks = front ++ [final] -> Forall (fun chunk => length chunk = 3) front.
Proof.
  destruct (yield_chunks_full_width [1; 2; 3; 4; 5; 6; 7]%Z 3)
    as (chunks & Hrun & _ & _ & Hcount & Hfull); [by vm_compute |].
  exists chunks. split; [exact Hrun |]. split; [exact Hcount | exact Hfull].
Defined.

Lemma yield_chunks_bad_width_witness :
  yield_chunks ["a"; "b"] (-4) = Raise ValueError
  /\ yield_chunks (@nil string) (-4) = Ok [].
Proof.
  split.
  - apply (yield_chunks_bad_width ["a"; "b"] (-4)). left. reflexivity.
  - apply (yield_chunks_bad_width (@nil string) (-4)). left. reflexivity.
Defined.

(** ** [_configure] and the requests of a configured instance *)

Lemma endswith_slash_appended (endpoint : string) :
  Py.endswith (endpoint +:+ "/") "/"%char = true.
Proof.
  induction endpoint as [| c endpoint IH]; [done |].
  change (String c endpoint +:+ "/") with (String c (endpoint +:+ "/")).
  cbn [Py.endswith]. destruct (endpoint +:+ "/") eqn:Hrest; [| exact IH].
  by destruct endpoint.
Qed.

(** X3: an endpoint declared without the closing slash is configured as the
    same endpoint declared with it: credential, parameters and address are
    the same. *)
Theorem configure_closing_slash (cfg : settings) (endpoint : string)
    (apikey : option string) :
  Py.endswith endpoint "/"%char = false ->
  BaseQuery._configure cfg endpoint apikey
  = BaseQuery._configure cfg (endpoint +:+ "/") apikey.
Proof.
  intros Hopen. unfold BaseQuery._configure.
  by rewrite Hopen, endswith_slash_appended.
Qed.

Lemma configure_closing_slash_witness :
  BaseQuery._configure keyed "series" None
  = BaseQuery._configure keyed "series/" None.
Proof. apply (configure_closing_slash keyed "series" None). reflexivity. Defined.

Lemma new_attributes cfg args keyword w q :
  fst (Series.new cfg args keyword w) = Ok q ->
  apikey q <> ""
  /\ _params q = default_params (apikey q)
  /\ url q = "https://api.eia.gov/series/"
  /\ series_ids q = None.
Proof.
  unfold Series.new. cbn [fst].
  destruct (BaseQuery.bind_arguments args keyword) as [bound | |]; [| done | done].
  cbn [mbind result_bind]. unfold BaseQuery._configure.
  destruct (Py.or bound (APIKEY cfg)) as [key |] eqn:Hor; [| done].
  destruct (Py.truthy (Some key)) eqn:Htruthy; [| done].
  cbn [mbind result_bind]. intros [= <-]. cbn.
  by apply truthy_some in Htruthy.
Qed.

(** X4: whatever the arguments and the configuration, an instance that the
    call of the class returns holds a non-empty credential, and each of its
    submissions goes to the series address with exactly two parameters, that
    credential and the json output format, and the caller's mapping as body. *)
Theorem configured_submission
    (cfg : settings) (args : list string) (keyword : option string)
    (w : world) (q : instance) (data : gmap string string) (w' : world) :
  fst (Series.new cfg args keyword w) = Ok q ->
  apikey q <> ""
  /\ sent (net (snd (BaseQuery._post data {| self := q; net := w' |})))
     = sent w'
       ++ [ {| req_verb := POST;
               req_url := "https://api.eia.gov/series/";
               req_params := default_params (apikey q);
               req_data := Some data |} ].
Proof.
  intros Hnew. apply new_attributes in Hnew as (Hkey & Hparams & Hurl & _).
  split; [done |].
  unfold BaseQuery._post, request_, exchange. cbn [self net].
  rewrite Hparams, Hurl. by destruct (tape w').
Qed.

Lemma configured_submission_witness :
  apikey secret_query <> ""
  /\ sent (net (snd (BaseQuery._post {[ "series_id" := "A;B" ]}
                       {| self := secret_query; net := service [] |})))
     = sent (service [])
       ++ [ {| req_verb := POST;
               req_url := "https://api.eia.gov/series/";
               req_params := default_params (apikey secret_query);
               req_data := Some {[ "series_id" := "A;B" ]} |} ].
Proof.
  apply (configured_submission keyed [] (Some "secret") (service []) secret_query
           {[ "series_id" := "A;B" ]} (service [])).
  reflexivity.
Defined.

(** ** [__post_init__] and the instance that the class returns *)

Lemma batch_ids_chunked (ids : list string) :
  exists chunks,
    batch_ids ids = Ok (map (join ";") chunks)
    /\ List.concat chunks = ids
    /\ Forall (fun chunk => 1 <= length chunk) chunks
    /\ length chunks = (length ids + 99) / 100.
Proof.
  destruct (yield_chunks_partition ids 100) as (chunks & Hrun & Hcat & Hall & Hcount);
    [by vm_compute |].
  exists chunks. unfold batch_ids. rewrite Hrun. repeat split; try done.
  eapply Forall_impl; [exact Hall |]. cbn. lia.
Qed.

(** X5: [__post_init__] never raises and sends nothing; it assigns one batch
    per started hundred of identifiers, keeps the credential, the parameters
    and the address, and a later call replaces the batches of an earlier one. *)
Theorem post_init_assigns (ids : list string) (st : state) :
  exists batches,
    batch_ids ids = Ok batches
    /\ length batches = (length ids + 99) / 100
    /\ Series.__post_init__ ids st
       = (Ok tt,
          {| self := {| apikey := apikey (self st); _params := _params (self st);
                        url := url (self st); series_ids := Some batches |};
             net := net st |})
    /\ forall earlier,
         Series.__post_init__ ids (snd (Series.__post_init__ earlier st))
         = Series.__post_init__ ids st.
Proof.
  destruct (batch_ids_chunked ids) as (chunks & Hrun & _ & _ & Hcount).
  exists (map (join ";") chunks). split; [done |].
  split; [by rewrite length_map |].
  unfold Series.__post_init__. rewrite Hrun. split; [done |].
  intros earlier. by destruct (batch_ids_chunked earlier) as (chunks' & -> & _).
Qed.

(** X6: an instance as the call of the class returns it has no batches: its
    list view and its table view raise [AttributeError] and send nothing. *)
Theorem fresh_instance_views
    (cfg : settings) (args : list string) (keyword : option string)
    (w : world) (q : instance) (include_metadata : bool) (w' : world) :
  fst (Series.new cfg args keyword w) = Ok q ->
  Series.to_dict {| self := q; net := w' |}
  = (Raise AttributeError, {| self := q; net := w' |})
  /\ Series.to_dataframe include_metadata {| self := q; net := w' |}
     = (Raise AttributeError, {| self := q; net := w' |}).
Proof.
  intros Hnew. apply new_attributes in Hnew as (_ & _ & _ & Hnone).
  unfold Series.to_dataframe, Series.to_dict, mbind, M_bind, Series.parse.
  cbn [self]. by rewrite Hnone.
Qed.

Lemma fresh_instance_views_witness :
  Series.to_dict {| self := secret_query; net := service [Ok answer_ab] |}
  = (Raise AttributeError, {| self := secret_query; net := service [Ok answer_ab] |})
  /\ Series.to_dataframe true {| self := secret_query; net := service [Ok answer_ab] |}
     = (Raise AttributeError,
        {| self := secret_query; net := service [Ok answer_ab] |}).
Proof.
  apply (fresh_instance_views keyed [] (Some "secret") (service []) secret_query
           true (service [Ok answer_ab])).
  reflexivity.
Defined.

(** ** The submission loop *)

Lemma parse_loop_step q batch pending output log answers :
  Series.parse_loop (batch :: pending) output
    {| self := q; net := {| sent := log; tape := answers |} |}
  = let st1 := {| self := q;
                  net := {| sent := log ++ [batch_request q batch];
                            tape := tail answers |} |} in
    match answers with
    | [] => (Raise TransportError, st1)
    | Ok group :: _ =>
        match Series.collect group output with
        | Ok output' => Series.parse_loop pending output' st1
        | Raise e => (Raise e, st1)
        | Unmodelled => (Unmodelled, st1)
        end
    | Raise e :: _ => (Raise e, st1)
    | Unmodelled :: _ => (Unmodelled, st1)
    end.
Proof.
  by destruct answers as [| [group | e |] answers].
Qed.

Lemma parse_loop_prefix q :
  forall finished groups pending output log answers,
    length groups = length finished ->
    Forall (fun group => response_mapping group = true) groups ->
    Series.parse_loop (finished ++ pending) output
      {| self := q; net := {| sent := log; tape := map Ok groups ++ answers |} |}
    = Series.parse_loop pending (output ++ List.concat (map series_list groups))
        {| self := q;
           net := {| sent := log ++ map (batch_request q) finished;
                     tape := answers |} |}.
Proof.
  induction finished as [| batch finished IH];
    intros groups pending output log answers Hlen Hall.
  - destruct groups; [| done]. cbn. by rewrite !app_nil_r.
  - destruct groups as [| group groups]; [done |].
    apply Forall_cons in Hall as [Hgroup Hall]. injection Hlen as Hlen.
    cbn [map app]. rewrite parse_loop_step. cbn zeta. cbn [tail].
    rewrite collect_mapping by done. rewrite IH by done.
    cbn [map List.concat]. by rewrite <- !app_assoc.
Qed.

Lemma parse_loop_posts q pending :
  forall output log answers,
    exists k,
      k <= length pending
      /\ sent (net (snd (Series.parse_loop pending output
                           {| self := q; net := {| sent := log; tape := answers |} |})))
         = log ++ map (batch_request q) (take k pending)
      /\ forall found,
           fst (Series.parse_loop pending output
                  {| self := q; net := {| sent := log; tape := answers |} |})
           = Ok found ->
           k = length pending.
Proof.
  induction pending as [| batch pending IH]; intros output log answers.
  - exists 0. cbn. by rewrite app_nil_r.
  - rewrite parse_loop_step. cbn zeta.
    assert (forall (r : result (list json)) st1,
              (forall found, r <> Ok found) ->
              sent (net st1) = log ++ [batch_request q batch] ->
              exists k, k <= length (batch :: pending)
                /\ sent (net (snd (r, st1)))
                   = log ++ map (batch_request q) (take k (batch :: pending))
                /\ forall found, fst (r, st1) = Ok found -> k = length (batch :: pending))
      as Hstop.
    { intros r st1 Hbad Hsent. exists 1. cbn [length take map snd fst].
      split; [lia |]. split; [by rewrite take_0 |].
      intros found Hfound. by destruct (Hbad found). }
    destruct answers as [| [group | e |] answers]; try by apply Hstop.
    destruct (Series.collect group output) as [output' | e |]; try by apply Hstop.
    cbn [tail].
    destruct (IH output' (log ++ [batch_request q batch]) answers) as (k & Hk & Hsent & Hall).
    exists (S k). cbn [length take map]. split; [lia |].
    split; [by rewrite Hsent, <- app_assoc |].
    intros found Hfound. by rewrite (Hall found Hfound).
Qed.

(** X7: whatever the service answers, the requests that collection issues
    are submissions of the batches to the instance's address with its stored
    parameters, from the first batch on, in order and without a gap; when
    collection returns a list, every batch has been submitted. *)
Theorem collection_submits_in_order (st : state) (batches : list string) :
  series_ids (self st) = Some batches ->
  exists k,
    k <= length batches
    /\ sent (net (snd (Series.parse st)))
       = sent (net st) ++ map (batch_request (self st)) (take k batches)
    /\ forall found, fst (Series.parse st) = Ok found -> k = length batches.
Proof.
  intros Hids. unfold Series.parse. rewrite Hids.
  destruct st as [q [log answers]]. apply parse_loop_posts.
Qed.

Lemma collection_submits_in_order_witness :
  exists k,
    k <= 2
    /\ sent (net (snd (Series.parse
                         {| self := sample_query;
                            net := service [Ok answer_ab; Raise TransportError] |})))
       = [] ++ map (batch_request sample_query) (take k ["A;B"; "C"]).
Proof.
  destruct (collection_submits_in_order
              {| self := sample_query;
                 net := service [Ok answer_ab; Raise TransportError] |}
              ["A;B"; "C"])
    as (k & Hk & Hsent & _); [reflexivity |].
  exists k. split; [exact Hk | exact Hsent].
Defined.

(** X8: when the submission of a batch fails, collection raises that failure
    at once: the records of the batches answered before are not returned and
    the batches after the failing one are never submitted. *)
Theorem collection_aborts_on_failure
    (st : state) (finished : list string) (failing : string) (later : list string)
    (groups : list json) (e : exn) (rest : list (result json)) :
  series_ids (self st) = Some (finished ++ failing :: later) ->
  tape (net st) = map Ok groups ++ Raise e :: rest ->
  length groups = length finished ->
  Forall (fun group => response_mapping group = true) groups ->
  Series.parse st
  = (Raise e,
     {| self := self st;
        net := {| sent := sent (net st)
                          ++ map (batch_request (self st)) (finished ++ [failing]);
                  tape := rest |} |}).
Proof.
  intros Hids Htape Hlen Hall. unfold Series.parse. rewrite Hids.
  destruct st as [q [log answers]]. cbn [self net tape sent] in *. subst answers.
  rewrite parse_loop_prefix by done. rewrite parse_loop_step. cbn zeta. cbn [tail].
  by rewrite map_app, app_assoc.
Qed.

Lemma collection_aborts_on_failure_witness :
  Series.parse
    {| self := sample_query; net := service [Ok answer_ab; Raise TransportError] |}
  = (Raise TransportError,
     {| self := sample_query;
        net := {| sent := [] ++ map (batch_request sample_query) (["A;B"] ++ ["C"]);
                  tape := [] |} |}).
Proof.
  apply (collection_aborts_on_failure
           {| self := sample_query;
              net := service [Ok answer_ab; Raise TransportError] |}
           ["A;B"] "C" [] [answer_ab] TransportError []).
  - reflexivity.
  - reflexivity.
  - reflexivity.
  - repeat constructor.
Defined.

Lemma collect_malformed group output e :
  malformed group = Some e -> Series.collect group output = Raise e.
Proof.
  unfold malformed, Series.collect, Py.get.
  destruct group as [| | | | | |fields]; try by intros [= <-].
  destruct (Py.lookup "series" fields) as [[| | | | | |] |]; try done;
    by intros [= <-].
Qed.

(** X9: a decoded body that is no object makes collection raise
    [AttributeError], and a series field that holds [None], a boolean or a
    number makes it raise [TypeError]; either way the batches after it are
    never submitted. *)
Theorem collection_rejects_malformed
    (st : state) (finished : list string) (failing : string) (later : list string)
    (groups : list json) (bad : json) (e : exn) (rest : list (result json)) :
  series_ids (self st) = Some (finished ++ failing :: later) ->
  tape (net st) = map Ok groups ++ Ok bad :: rest ->
  length groups = length finished ->
  Forall (fun group => response_mapping group = true) groups ->
  malformed bad = Some e ->
  Series.parse st
  = (Raise e,
     {| self := self st;
        net := {| sent := sent (net st)
                          ++ map (batch_request (self st)) (finished ++ [failing]);
                  tape := rest |} |}).
Proof.
  intros Hids Htape Hlen Hall Hbad. unfold Series.parse. rewrite Hids.
  destruct st as [q [log answers]]. cbn [self net tape sent] in *. subst answers.
  rewrite parse_loop_prefix by done. rewrite parse_loop_step. cbn zeta. cbn [tail].
  rewrite (collect_malformed bad _ e Hbad). by rewrite map_app, app_assoc.
Qed.

Lemma collection_rejects_malformed_witness :
  Series.parse
    {| self := sample_query; net := service [Ok answer_null; Ok answer_ab] |}
  = (Raise TypeError,
     {| self := sample_query;
        net := {| sent := [] ++ map (batch_request sample_query) ([] ++ ["A;B"]);
                  tape := [Ok answer_ab] |} |}).
Proof.
  apply (collection_rejects_malformed
           {| self := sample_query; net := service [Ok answer_null; Ok answer_ab] |}
           [] "A;B" ["C"] [] answer_null TypeError [Ok answer_ab]).
  - reflexivity.
  - reflexivity.
  - reflexivity.
  - constructor.
  - reflexivity.
Defined.

(** X10: nothing is kept between two calls of the list view: the second call
    submits every batch again and returns what the service answers then. *)
Theorem list_view_submits_again
    (st : state) (batches : list string) (first second : list json)
    (rest : list (result json)) :
  series_ids (self st) = Some batches ->
  tape (net st) = map Ok first ++ map Ok second ++ rest ->
  length first = length batches ->
  length second = length batches ->
  Forall (fun group => response_mapping group = true) first ->
  Forall (fun group => response_mapping group = true) second ->
  fst (Series.to_dict (snd (Series.to_dict st)))
  = Ok (List.concat (map series_list second))
  /\ sent (net (snd (Series.to_dict (snd (Series.to_dict st)))))
     = sent (net st)
       ++ map (batch_request (self st)) batches
       ++ map (batch_request (self st)) batches.
Proof.
  intros Hids Htape Hfirst Hsecond Hall1 Hall2.
  unfold Series.to_dict, Series.parse. rewrite Hids.
  destruct st as [q [log answers]]. cbn [self net tape sent] in *. subst answers.
  rewrite (parse_loop_collects q batches first [] log) by done.
  cbn [snd self]. rewrite Hids.
  rewrite (parse_loop_collects q batches second []) by done.
  cbn. by rewrite <- app_assoc.
Qed.

Lemma list_view_submits_again_witness :
  fst (Series.to_dict
         (snd (Series.to_dict
                 {| self := sample_query;
                    net := service [Ok answer_ab; Ok answer_bare;
                                    Ok answer_bare; Ok answer_c] |})))
  = Ok [record_bare].
Proof.
  apply (list_view_submits_again
           {| self := sample_query;
              net := service [Ok answer_ab; Ok answer_bare;
                              Ok answer_bare; Ok answer_c] |}
           ["A;B"; "C"] [answer_ab; answer_bare] [answer_bare; answer_c] []).
  - reflexivity.
  - reflexivity.
  - reflexivity.
  - reflexivity.
  - repeat constructor.
  - repeat constructor.
Defined.

(** X11: the table view talks to the service exactly as the list view does:
    after either, the instance and the service are in the same state, and a
    failure of the list view is the failure of the table view. *)
Theorem table_view_collects_alike (include_metadata : bool) (st : state) :
  snd (Series.to_dataframe include_metadata st) = snd (Series.to_dict st)
  /\ forall e,
       fst (Series.to_dict st) = Raise e ->
       fst (Series.to_dataframe include_metadata st) = Raise e.
Proof.
  unfold Series.to_dataframe, Series.to_dict, mbind, M_bind, lift.
  destruct (Series.parse st) as [[records | e |] st1]; cbn [fst snd].
  - split; [| done]. by destruct (Series.frames include_metadata records []).
  - split; [done |]. by intros ? [= <-].
  - by split.
Qed.

(** X12: every identifier is submitted exactly once: after [__post_init__] on
    identifiers without a separator in them, the list view submits batches
    that, split on the separator and put end to end, are the identifiers in
    their order, and it returns the series lists of the answers. *)
Theorem identifiers_submitted_once
    (ids : list string) (st : state) (groups : list json)
    (rest : list (result json)) :
  Forall (fun s => mentions semicolon s = false) ids ->
  tape (net st) = map Ok groups ++ rest ->
  length groups = (length ids + 99) / 100 ->
  Forall (fun group => response_mapping group = true) groups ->
  exists batches,
    series_ids (self (snd (Series.__post_init__ ids st))) = Some batches
    /\ List.concat (map (split semicolon) batches) = ids
    /\ sent (net (snd (Series.to_dict (snd (Series.__post_init__ ids st)))))
       = sent (net st)
         ++ map (batch_request (self (snd (Series.__post_init__ ids st)))) batches
    /\ fst (Series.to_dict (snd (Series.__post_init__ ids st)))
       = Ok (List.concat (map series_list groups)).
Proof.
  intros Hclean Htape Hlen Hall.
  destruct (batch_ids_chunked ids) as (chunks & Hrun & Hcat & Hsome & Hcount).
  exists (map (join ";") chunks).
  unfold Series.__post_init__. rewrite Hrun. cbn [snd self series_ids].
  split; [done |].
  split; [rewrite split_join_chunks; [done | done | by rewrite Hcat] |].
  unfold Series.to_dict, Series.parse. cbn [self series_ids].
  destruct st as [q [log answers]]. cbn [self net tape sent] in *. subst answers.
  rewrite (parse_loop_collects _ (map (join ";") chunks) groups [] log rest);
    [done | by rewrite length_map, Hcount | done].
Qed.

Lemma identifiers_submitted_once_witness :
  exists batches,
    series_ids (self (snd (Series.__post_init__ (idents 101)
                             {| self := secret_query;
                                net := service [Ok answer_ab; Ok answer_bare] |})))
    = Some batches
    /\ List.concat (map (split semicolon) batches) = idents 101.
Proof.
  destruct (identifiers_submitted_once (idents 101)
              {| self := secret_query; net := service [Ok answer_ab; Ok answer_bare] |}
              [answer_ab; answer_bare] [])
    as (batches & Hids & Hback & _).
  - vm_compute. repeat constructor.
  - reflexivity.
  - reflexivity.
  - repeat constructor.
  - exists batches. split; [exact Hids | exact Hback].
Defined.

(** ** The table, further *)

Lemma frames_prefix (include_metadata : bool) (good : list json) :
  Forall (fun record => series_record record = true) good ->
  exists dfs,
    forall more data,
      Series.frames include_metadata (good ++ more) data
      = Series.frames include_metadata more (data ++ dfs).
Proof.
  induction good as [| record good IH]; intros Hall.
  - exists []. intros more data. by rewrite app_nil_r.
  - apply Forall_cons in Hall as [Hrecord Hall].
    destruct (frame_related include_metadata record Hrecord) as (df & Hrun & _).
    destruct (IH Hall) as (dfs & Hloop).
    exists (df :: dfs). intros more data. cbn [app Series.frames].
    rewrite Hrun. cbn [mbind result_bind]. by rewrite Hloop, <- app_assoc.
Qed.

(** X13: a record without the data field stops the table view with
    [KeyError], with or without metadata, however many well-formed records
    come before it. *)
Theorem table_requires_data
    (include_metadata : bool) (st : state) (good : list json)
    (fields : list (string * json)) (rest : list json) :
  fst (Series.parse st) = Ok (good ++ JObj fields :: rest) ->
  Forall (fun record => series_record record = true) good ->
  Py.lookup "data" fields = None ->
  fst (Series.to_dataframe include_metadata st) = Raise KeyError.
Proof.
  intros Hparse Hgood Hmissing.
  rewrite (to_dataframe_after_parse include_metadata st _ Hparse).
  destruct (frames_prefix include_metadata good Hgood) as (dfs & ->).
  cbn [Series.frames]. unfold Series.frame, Py.pop. by rewrite Hmissing.
Qed.

Lemma table_requires_data_witness :
  fst (Series.to_dataframe true
         {| self := sample_query; net := service [Ok answer_ab; Ok answer_c] |})
  = Raise KeyError.
Proof.
  apply (table_requires_data true
           {| self := sample_query; net := service [Ok answer_ab; Ok answer_c] |}
           [record_a; record_b] [("series_id", JStr "C")] []).
  - reflexivity.
  - repeat constructor.
  - reflexivity.
Defined.

Lemma observed_pairs (records : list json) (item : json) :
  Forall (fun record => observed record = true) records ->
  In item (List.concat (map observations records)) ->
  length (cells_of item) = 2.
Proof.
  intros Hall Hin. apply in_concat in Hin as (items & Hitems & Hin).
  apply in_map_iff in Hitems as (record & <- & Hrecord).
  rewrite List.Forall_forall in Hall. specialize (Hall record Hrecord).
  destruct record as [| | | | | |fields]; try done.
  cbn [observed observations] in *.
  destruct (Py.lookup "data" fields) as [[| | | | |items|] |]; try done.
  rewrite forallb_forall in Hall. specialize (Hall item Hin).
  by destruct item as [| | | | | [| period [| value [| ? ?]]] |].
Qed.

(** X14: without metadata the rows of the table are made from the
    observations of the records, record after record and each in its order:
    one row of two cells per observation, the first made from its period and
    the second from its value. *)
Theorem plain_table_rows (st : state) (records : list json) :
  fst (Series.parse st) = Ok records ->
  records <> [] ->
  Forall (fun record => observed record = true) records ->
  exists df,
    fst (Series.to_dataframe false st) = Ok df
    /\ rows df = map cells_of (List.concat (map observations records))
    /\ Forall (fun row => length row = 2) (rows df).
Proof.
  intros Hparse Hsome Hall.
  rewrite (to_dataframe_after_parse false st records Hparse).
  rewrite frames_plain by done. cbn [mbind result_bind app].
  rewrite concat_frames by (by destruct records).
  rewrite plain_frames_labels, plain_frames_rows by done.
  eexists. split; [reflexivity |]. cbn [rows].
  assert (List.concat (map (fun record => map cells_of (observations record)) records)
          = map cells_of (List.concat (map observations records))) as ->.
  { clear. induction records as [| record records IH]; [done |].
    cbn [map List.concat]. by rewrite IH, map_app. }
  split; [done |].
  apply List.Forall_map. apply List.Forall_forall. intros item Hin.
  by apply (observed_pairs records).
Qed.

Lemma plain_table_rows_witness :
  exists df,
    fst (Series.to_dataframe false
           {| self := sample_query; net := service [Ok answer_ab; Ok answer_bare] |})
    = Ok df
    /\ rows df = map cells_of (List.concat (map observations [record_a; record_b])).
Proof.
  destruct (plain_table_rows
              {| self := sample_query; net := service [Ok answer_ab; Ok answer_bare] |}
              [record_a; record_b])
    as (df & Hrun & Hrows & _).
  - reflexivity.
  - discriminate.
  - repeat constructor.
  - exists df. split; [exact Hrun | exact Hrows].
Defined.

Lemma cell_at_absent (labels : list string) (row : list cell) (label : string) :
  ~ In label labels -> Pandas.cell_at labels row label = NaN.
Proof.
  revert row. induction labels as [| l labels IH]; intros row Hnot; [done |].
  destruct row as [| c row]; [done |]. cbn [Pandas.cell_at].
  destruct (String.eqb l label) eqn:Heq.
  - apply String.eqb_eq in Heq as ->. destruct Hnot. by left.
  - apply IH. intros Hin. apply Hnot. by right.
Qed.

Lemma reindex_absent (labels : list string) (records : list json)
    (dfs : list DataFrame) :
  Forall2 (fun record df => rectangular df /\ frame_of true record df) records dfs ->
  Forall2
    (fun record segment =>
       length segment = length (observations record)
       /\ forall row, In row segment ->
            forall label,
              label <> "period" -> label <> "value" ->
              ~ In label (map fst (metadata record)) ->
              Pandas.cell_at labels row label = NaN)
    records (map (Pandas.reindex labels) dfs).
Proof.
  induction 1 as [| record df records dfs [Hrect (Hcount & Hlabels & _)] _ IH];
    [constructor |].
  cbn [map]. constructor; [| done]. split.
  - unfold Pandas.reindex. by rewrite length_map.
  - intros row' Hrow' label Hperiod Hvalue Hfield. unfold Pandas.reindex in Hrow'.
    apply in_map_iff in Hrow' as (row & <- & Hrow).
    destruct (in_dec string_dec label labels) as [Hin | Hout].
    + rewrite cell_at_laid_out by done. apply cell_at_absent.
      rewrite Hlabels. tauto.
    + by apply cell_at_absent.
Qed.

(** X15: in the table with metadata, a row that comes from a record holds
    the missing value under every column that is neither period nor value nor
    a metadata field of that record: fields that only other records have are
    left empty, never filled from a neighbour. *)
Theorem foreign_metadata_is_missing (st : state) (records : list json) :
  fst (Series.parse st) = Ok records ->
  records <> [] ->
  Forall (fun record => series_record record = true) records ->
  exists df segments,
    fst (Series.to_dataframe true st) = Ok df
    /\ rows df = List.concat segments
    /\ Forall2
         (fun record segment =>
            length segment = length (observations record)
            /\ forall row, In row segment ->
                 forall label,
                   label <> "period" -> label <> "value" ->
                   ~ In label (map fst (metadata record)) ->
                   Pandas.cell_at (columns df) row label = NaN)
         records segments.
Proof.
  intros Hparse Hsome Hall.
  destruct (frames_related true records [] Hall) as (dfs & Hrun & Hrel).
  rewrite (to_dataframe_after_parse true st records Hparse), Hrun.
  cbn [mbind result_bind app].
  destruct dfs as [| df dfs]; [by inversion Hrel; subst |].
  eexists. eexists. split; [reflexivity |]. cbn [columns rows].
  split; [reflexivity |]. by apply reindex_absent.
Qed.

Lemma foreign_metadata_is_missing_witness :
  exists df segments,
    fst (Series.to_dataframe true
           {| self := sample_query; net := service [Ok answer_ab; Ok answer_bare] |})
    = Ok df
    /\ rows df = List.concat segments.
Proof.
  destruct (foreign_metadata_is_missing
              {| self := sample_query; net := service [Ok answer_ab; Ok answer_bare] |}
              [record_a; record_b])
    as (df & segments & Hrun & Hrows & _).
  - reflexivity.
  - discriminate.
  - repeat constructor.
  - exists df, segments. split; [exact Hrun | exact Hrows].
Defined.

Lemma segments_total (records : list json) (segments : list (list (list cell))) :
  Forall2 (fun record (segment : list (list cell)) =>
             length segment = length (observations record))
    records segments ->
  length (List.concat segments)
  = length (List.concat (map observations records)).
Proof.
  induction 1 as [| record segment records segments Hlen _ IH]; [done |].
  cbn [map List.concat]. rewrite !length_app. by rewrite Hlen, IH.
Qed.

(** X16: with or without metadata, the table has one row, and one row label,
    per observation of the records: as many as all their data lists hold
    together. *)
Theorem table_row_count (include_metadata : bool) (st : state)
    (records : list json) :
  fst (Series.parse st) = Ok records ->
  records <> [] ->
  Forall (fun record => series_record record = true) records ->
  exists df,
    fst (Series.to_dataframe include_metadata st) = Ok df
    /\ length (rows df) = length (List.concat (map observations records))
    /\ length (index df) = length (rows df).
Proof.
  intros Hparse Hsome Hall.
  destruct (frames_related include_metadata records [] Hall) as (dfs & Hrun & Hrel).
  rewrite (to_dataframe_after_parse include_metadata st records Hparse), Hrun.
  cbn [mbind result_bind app].
  destruct dfs as [| df dfs]; [by inversion Hrel; subst |].
  eexists. split; [reflexivity |]. cbn [rows index].
  split.
  - apply segments_total. by apply (reindex_counts include_metadata).
  - rewrite length_seqZ. lia.
Qed.

Lemma table_row_count_witness :
  exists df,
    fst (Series.to_dataframe true
           {| self := sample_query; net := service [Ok answer_ab; Ok answer_bare] |})
    = Ok df
    /\ length (rows df) = 3.
Proof.
  destruct (table_row_count true
              {| self := sample_query; net := service [Ok answer_ab; Ok answer_bare] |}
              [record_a; record_b])
    as (df & Hrun & Hrows & _).
  - reflexivity.
  - discriminate.
  - repeat constructor.
  - exists df. split; [exact Hrun | exact Hrows].
Defined.
